(** * NeumAI sink connectors: PineconeSink and SupabaseSink

    A shallow embedding of [neumai/SinkConnectors/PineconeSink.py] and
    [neumai/SinkConnectors/SupabaseSink.py].

    The two connectors are glue around client libraries ([pinecone],
    [vecs]).  The libraries are interfaces here: a type class per library,
    every entry point a function on an abstract backend state that either
    returns a value or raises.  The connectors run in a small monad that
    threads the connector object, the backend state and a transcript of the
    library calls made, and that has Python's [try]/[except]/[finally]. *)

From Stdlib Require Import ZArith List String Lia.
From Stdlib Require Import SpecFloat.
From stdpp Require Import base option list gmap strings.

Local Open Scope Z_scope.
Local Open Scope string_scope.
Local Open Scope list_scope.

(** ** Python values that cross the connector boundary *)

(** A Python [float] (binary64). *)
Definition float := spec_float.

(** Values a metadata dictionary may hold. *)
Inductive meta_value :=
  | MStr (s : string)
  | MInt (z : Z)
  | MFloat (f : float)
  | MBool (b : bool)
  | MStrs (l : list string).

Abbreviation Metadata := (gmap string meta_value).

(** [neumai.Shared.NeumVector] *)
Module NeumVector.
Record t := Build { id : string; vector : list float; metadata : Metadata }.
End NeumVector.

(** [neumai.Shared.NeumSearch.NeumSearchResult] *)
Module NeumSearchResult.
Record t := Build { id : string; metadata : Metadata; score : float }.
End NeumSearchResult.

(** [neumai.Shared.NeumSinkInfo]: the number is whatever integer the
    service reports. *)
Module NeumSinkInfo.
Record t := Build { number_vectors_stored : Z }.
End NeumSinkInfo.

(** ** Exceptions *)

(** The classes that occur: the two built-in ones the connectors can
    provoke themselves, the client libraries' own errors (named by their
    class), and the eight classes of [neumai.Shared.Exceptions].  All are
    subclasses of [Exception]. *)
Inductive exn_class :=
  | IndexError
  | KeyError
  | ClientError (class_name : string)
  | PineconeConnectionException
  | PineconeInsertionException
  | PineconeIndexInfoException
  | PineconeQueryException
  | SupabaseConnectionException
  | SupabaseInsertionException
  | SupabaseIndexInfoException
  | SupabaseQueryException.

(** An exception object: its class and what [str(e)] prints. *)
Record exn := Exn { class_of : exn_class; str : string }.

(** The four kinds of domain exception, one per operation. *)
Inductive kind :=
  | ConnectionException
  | InsertionException
  | QueryException
  | IndexInfoException.

Definition domain_kind (c : exn_class) : option kind :=
  match c with
  | PineconeConnectionException | SupabaseConnectionException => Some ConnectionException
  | PineconeInsertionException | SupabaseInsertionException => Some InsertionException
  | PineconeQueryException | SupabaseQueryException => Some QueryException
  | PineconeIndexInfoException | SupabaseIndexInfoException => Some IndexInfoException
  | IndexError | KeyError | ClientError _ => None
  end.

(** An exception is raw when it is not one of the domain classes. *)
Definition is_raw (e : exn) : bool :=
  match domain_kind (class_of e) with Some _ => false | None => true end.

(** How a statement, a call or a whole method ends. *)
Inductive outcome (A : Type) :=
  | Return (a : A)
  | Raise (e : exn).
Arguments Return {A} a.
Arguments Raise {A} e.

Definition outcome_map {A B} (f : A -> B) (r : outcome A) : outcome B :=
  match r with Return a => Return (f a) | Raise e => Raise e end.

(** ** What the libraries are sent and what they answer *)

(** The [(id, vector, metadata)] triple both libraries upsert. *)
Definition record_tuple := (string * list float * Metadata)%type.

Definition as_tuple (v : NeumVector.t) : record_tuple :=
  (NeumVector.id v, NeumVector.vector v, NeumVector.metadata v).

(** One entry of a Pinecone query's ["matches"].  The connector
    subscripts it with ["id"], ["metadata"] and ["score"]; each of the
    three may be missing from what the service answers. *)
Record ScoredVector := {
  sv_id : option string;
  sv_score : option float;
  sv_metadata : option Metadata
}.

(** One row of a vecs query with metadata and value:
    [(id, distance, metadata)]. *)
Definition vecs_row := (string * float * Metadata)%type.

(** [describe_index_stats()]: subscripted three times by the connector. *)
Abbreviation IndexStats := (gmap string (gmap string (gmap string Z))).

Inductive call :=
  | Call_pinecone_init (api_key environment : string)
  | Call_pinecone_Index (index_name : string)
  | Call_describe_index_stats
  | Call_Index_upsert (vectors : list record_tuple) (namespace : string)
  | Call_Index_query (vector : list float) (top_k : Z) (namespace : string)
      (include_values include_metadata : bool)
  | Call_create_client (connection_string : string)
  | Call_get_or_create_collection (name : string) (dimension : Z)
  | Call_get_collection (name : string)
  | Call_disconnect
  | Call_Collection_upsert (records : list record_tuple)
  | Call_Collection_query (data : list float) (include_metadata include_value : bool)
      (limit : Z)
  | Call_table_count.

Inductive reply :=
  | ReplyObject
  | ReplyStats (s : IndexStats)
  | ReplyUpsert (r : gmap string Z)
  | ReplyQuery (r : gmap string (list ScoredVector))
  | ReplyRows (r : list vecs_row)
  | ReplyCount (n : Z).

(** A transcript entry: the call and how it ended. *)
Record event := Ev { ev_call : call; ev_reply : outcome reply }.

(** ** The monad the connectors run in *)

(** [self] is the connector object, [world] the state of the service and
    of the client library, [log] the transcript so far. *)
Record state (O W : Type) := State { self : O; world : W; log : list event }.
Arguments State {O W} self world log.
Arguments self {O W} s.
Arguments world {O W} s.
Arguments log {O W} s.

Definition py (St A : Type) : Type := St -> outcome A * St.

Definition ret {St A} (a : A) : py St A := fun s => (Return a, s).

Definition raise {St A} (e : exn) : py St A := fun s => (Raise e, s).

Definition bind {St A B} (m : py St A) (k : A -> py St B) : py St B :=
  fun s =>
    match m s with
    | (Return a, s') => k a s'
    | (Raise e, s') => (Raise e, s')
    end.

Notation "x <- m ;; k" := (bind m (fun x => k))
  (at level 100, m at next level, right associativity).
Notation "m ;;; k" := (bind m (fun _ => k))
  (at level 100, right associativity).

(** [try: body / except Exception as e: handler e] (every class modelled
    is an [Exception], so a bare [except:] is the same). *)
Definition try_except {St A} (body : py St A) (handler : exn -> py St A) : py St A :=
  fun s =>
    match body s with
    | (Return a, s') => (Return a, s')
    | (Raise e, s') => handler e s'
    end.

(** [try: body / finally: final]: [final] runs on every exit of [body];
    an exception of [final] replaces whatever was pending. *)
Definition try_finally {St A} (body : py St A) (final : py St unit) : py St A :=
  fun s =>
    match body s with
    | (r, s') =>
        match final s' with
        | (Return _, s'') => (r, s'')
        | (Raise e, s'') => (Raise e, s'')
        end
    end.

(** [for x in xs: acc = body x acc] *)
Fixpoint for_each {St A Acc} (xs : list A) (body : A -> Acc -> py St Acc) (acc : Acc)
  : py St Acc :=
  match xs with
  | [] => ret acc
  | x :: xs' => acc' <- body x acc ;; for_each xs' body acc'
  end.

(** [range(start, stop, step)] for a positive step: at most [stop]
    numbers lie below [stop]. *)
Fixpoint range_from (fuel start stop step : nat) : list nat :=
  match fuel with
  | O => []
  | S fuel' =>
      if (start <? stop)%nat then start :: range_from fuel' (start + step) stop step
      else []
  end.

Definition range (start stop step : nat) : list nat := range_from stop start stop step.

(** [l[i:j]] for [0 <= i <= j]. *)
Definition slice {A} (l : list A) (i j : nat) : list A := take (j - i) (drop i l).

(** Read the connector object. *)
Definition get_self {O W} : py (state O W) O := fun s => (Return (self s), s).

(** Call into the library: the backend state moves on and the transcript
    grows by the call and its reply. *)
Definition invoke {O W A} (c : call) (as_reply : A -> reply) (op : W -> outcome A * W)
  : py (state O W) A :=
  fun s =>
    match op (world s) with
    | (r, w') => (r, State (self s) w' (log s ++ [Ev c (outcome_map as_reply r)]))
    end.

(** [d[k]] on a dictionary-like reply. *)
Definition subscript {St V} (d : gmap string V) (k : string) : py St V :=
  match d !! k with
  | Some v => ret v
  | None => raise (Exn KeyError ("'" +:+ k +:+ "'"))
  end.

(** [m[k]] on a match, whose entry [k] may be missing. *)
Definition entry {St A} (o : option A) (k : string) : py St A :=
  match o with
  | Some v => ret v
  | None => raise (Exn KeyError ("'" +:+ k +:+ "'"))
  end.

(** The name rule of both connectors:
    [if name == None: name = f"pipeline_{pipeline_id}"]. *)
Definition resolve (name : option string) (pipeline_id : string) : string :=
  match name with
  | None => "pipeline_" +:+ pipeline_id
  | Some n => n
  end.

(** [l[i]] *)
Definition item {St A} (l : list A) (i : nat) : py St A :=
  match l !! i with
  | Some x => ret x
  | None => raise (Exn IndexError "list index out of range")
  end.

(** [self.f] *)
Definition attr {O W A} (f : O -> A) : py (state O W) A :=
  fun s => (Return (f (self s)), s).

(** ** The client libraries *)

(** The [pinecone] package: [pinecone.init], [pinecone.Index] and the
    methods of an index handle.  Each entry point may raise. *)
Class PineconeLib (W : Type) := {
  IndexHandle : Type;
  pinecone_init : string -> string -> W -> outcome unit * W;
  pinecone_Index : string -> W -> outcome IndexHandle * W;
  describe_index_stats : IndexHandle -> W -> outcome IndexStats * W;
  Index_upsert : IndexHandle -> list record_tuple -> string -> W ->
                 outcome (gmap string Z) * W;
  Index_query : IndexHandle -> list float -> Z -> string -> bool -> bool -> W ->
                outcome (gmap string (list ScoredVector)) * W
}.

(** The [vecs] package: [vecs.create_client], the methods of a client and
    of a collection; [table_count] is the expression
    [db.table.select('count( * )')[0].count]. *)
Class VecsLib (W : Type) := {
  Client : Type;
  Collection : Type;
  create_client : string -> W -> outcome Client * W;
  get_or_create_collection : Client -> string -> Z -> W -> outcome Collection * W;
  get_collection : Client -> string -> W -> outcome Collection * W;
  disconnect : Client -> W -> outcome unit * W;
  Collection_upsert : Collection -> list record_tuple -> W -> outcome unit * W;
  Collection_query : Collection -> list float -> bool -> bool -> Z -> W ->
                     outcome (list vecs_row) * W;
  table_count : Collection -> W -> outcome Z * W
}.

Definition object {A} (_ : A) : reply := ReplyObject.

(** ** PineconeSink *)

Module PineconeSink.

Record t := Build {
  api_key : string;
  environment : string;
  index : string;
  namespace : option string
}.

Definition sink_name : string := "PineconeSink".
Definition required_properties : list string := ["api_key"; "environment"; "index"].
Definition optional_properties : list string := ["namespace"].

Definition batch_size : nat := 32.

Section Methods.
Context {W : Type} {lib : PineconeLib W}.

Definition init (k e : string) : py (state t W) unit :=
  invoke (Call_pinecone_init k e) object (pinecone_init k e).

Definition Index (name : string) : py (state t W) IndexHandle :=
  invoke (Call_pinecone_Index name) object (pinecone_Index name).

Definition stats (h : IndexHandle) : py (state t W) IndexStats :=
  invoke Call_describe_index_stats ReplyStats (describe_index_stats h).

Definition upsert (h : IndexHandle) (vectors : list record_tuple) (ns : string)
  : py (state t W) (gmap string Z) :=
  invoke (Call_Index_upsert vectors ns) ReplyUpsert (Index_upsert h vectors ns).

Definition query (h : IndexHandle) (vector : list float) (top_k : Z) (ns : string)
    (include_values include_metadata : bool)
  : py (state t W) (gmap string (list ScoredVector)) :=
  invoke (Call_Index_query vector top_k ns include_values include_metadata) ReplyQuery
    (Index_query h vector top_k ns include_values include_metadata).

Definition validation : py (state t W) bool :=
  try_except
    (k <- attr api_key ;;
     e <- attr environment ;;
     init k e ;;;
     name <- attr index ;;
     index <- Index name ;;
     stats index ;;;
     ret tt)
    (fun e =>
       raise (Exn PineconeConnectionException
                ("Pinecone connection couldn't be initialized. See exception: " +:+ str e))) ;;;
  ret true.

(** One turn of the batching loop of [store]. *)
Definition store_batch (index : IndexHandle) (namespace : string)
    (vectors_to_store : list NeumVector.t) (i : nat) (vectors_stored : Z)
  : py (state t W) Z :=
  let i_end := Nat.min (i + batch_size) (length vectors_to_store) in
  let vector_batch := slice vectors_to_store i i_end in
  let to_upsert := map as_tuple vector_batch in
  result <- upsert index to_upsert namespace ;;
  n <- subscript result "upserted_count" ;;
  ret (vectors_stored + n).

Definition store (pipeline_id : string) (vectors_to_store : list NeumVector.t)
    (task_id : string) : py (state t W) Z :=
  api_key <- attr api_key ;;
  environment <- attr environment ;;
  index <- attr index ;;
  namespace <- attr namespace ;;
  let namespace := resolve namespace pipeline_id in
  vectors_stored <-
    try_except
      (init api_key environment ;;;
       index <- Index index ;;
       for_each (range 0 (length vectors_to_store) batch_size)
         (store_batch index namespace vectors_to_store) 0)
      (fun e =>
         raise (Exn PineconeInsertionException
                  ("Failed to store in Pinecone. Exception - " +:+ str e))) ;;
  ret vectors_stored.

(** One turn of the loop of [search] over the matches: the three
    subscripts are evaluated in the order written, then the result is
    appended.  The loop stands after the [try]. *)
Definition append_match (result : ScoredVector) (matches : list NeumSearchResult.t)
  : py (state t W) (list NeumSearchResult.t) :=
  id <- entry (sv_id result) "id" ;;
  metadata <- entry (sv_metadata result) "metadata" ;;
  score <- entry (sv_score result) "score" ;;
  ret (matches ++ [NeumSearchResult.Build id metadata score]).

Definition search (vector : list float) (number_of_results : Z) (pipeline_id : string)
  : py (state t W) (list NeumSearchResult.t) :=
  api_key <- attr api_key ;;
  environment <- attr environment ;;
  index <- attr index ;;
  namespace <- attr namespace ;;
  let namespace := resolve namespace pipeline_id in
  results <-
    try_except
      (init api_key environment ;;;
       index <- Index index ;;
       response <- query index vector number_of_results namespace false true ;;
       subscript response "matches")
      (fun e =>
         raise (Exn PineconeQueryException
                  ("Failed to query pinecone. Exception - " +:+ str e))) ;;
  for_each results append_match [].

(** [info] ends without a [return] when the name is not among the
    namespaces: the method then yields Python's [None]. *)
Definition info (pipeline_id : string) : py (state t W) (option NeumSinkInfo.t) :=
  api_key <- attr api_key ;;
  environment <- attr environment ;;
  index <- attr index ;;
  namespace <- attr namespace ;;
  let namespace := resolve namespace pipeline_id in
  try_except
    (init api_key environment ;;;
     index <- Index index ;;
     response <- stats index ;;
     namespaces <- subscript response "namespace" ;;
     if bool_decide (is_Some (namespaces !! namespace)) then
       summary <- subscript namespaces namespace ;;
       count <- subscript summary "vector_count" ;;
       ret (Some (NeumSinkInfo.Build count))
     else ret None)
    (fun e =>
       raise (Exn PineconeIndexInfoException
                ("Failed to get info for pinecone. Exception - " +:+ str e))).

End Methods.
End PineconeSink.

(** ** SupabaseSink *)

Module SupabaseSink.

Record t := Build {
  database_connection : string;
  collection_name : option string
}.

Definition sink_name : string := "SupabaseSink".
Definition required_properties : list string := ["database_connection"].
Definition optional_properties : list string := ["collection_name"].

Section Methods.
Context {W : Type} {lib : VecsLib W}.

Definition client (conn : string) : py (state t W) Client :=
  invoke (Call_create_client conn) object (create_client conn).

Definition get_or_create (vx : Client) (name : string) (dimension : Z)
  : py (state t W) Collection :=
  invoke (Call_get_or_create_collection name dimension) object
    (get_or_create_collection vx name dimension).

Definition get (vx : Client) (name : string) : py (state t W) Collection :=
  invoke (Call_get_collection name) object (get_collection vx name).

Definition close (vx : Client) : py (state t W) unit :=
  invoke Call_disconnect object (disconnect vx).

Definition upsert (db : Collection) (records : list record_tuple) : py (state t W) unit :=
  invoke (Call_Collection_upsert records) object (Collection_upsert db records).

Definition query (db : Collection) (data : list float)
    (include_metadata include_value : bool) (limit : Z)
  : py (state t W) (list vecs_row) :=
  invoke (Call_Collection_query data include_metadata include_value limit) ReplyRows
    (Collection_query db data include_metadata include_value limit).

Definition count (db : Collection) : py (state t W) Z :=
  invoke Call_table_count ReplyCount (table_count db).

Definition validation : py (state t W) bool :=
  try_except
    (conn <- attr database_connection ;;
     client conn ;;;
     ret tt)
    (fun e =>
       raise (Exn SupabaseConnectionException
                ("Supabase connection couldn't be initialized. See exception: " +:+ str e))) ;;;
  ret true.

(** One turn of the loop of [store] that builds [to_upsert]. *)
Definition append_record (vectors_to_store : list NeumVector.t) (i : nat)
    (to_upsert : list record_tuple) : py (state t W) (list record_tuple) :=
  v <- item vectors_to_store i ;;
  ret (to_upsert ++ [as_tuple v]).

Definition store (pipeline_id : string) (vectors_to_store : list NeumVector.t)
    (task_id : string) : py (state t W) Z :=
  database_connection <- attr database_connection ;;
  vx <- client database_connection ;;
  try_finally
    (try_except
       (collection_name <- attr collection_name ;;
        let collection_name := resolve collection_name pipeline_id in
        first <- item vectors_to_store 0 ;;
        let dimensions := Z.of_nat (length (NeumVector.vector first)) in
        db <- get_or_create vx collection_name dimensions ;;
        to_upsert <-
          for_each (range 0 (length vectors_to_store) 1)
            (append_record vectors_to_store) [] ;;
        upsert db to_upsert)
       (fun e =>
          raise (Exn SupabaseInsertionException
                   ("Supabase storing failed. Exception " +:+ str e))))
    (close vx) ;;;
  ret (Z.of_nat (length vectors_to_store)).

(** One turn of the loop of [search] over the rows: [result[0]] is the
    id, [result[1]] the score, [result[2]] the metadata. *)
Definition append_match (result : vecs_row) (matches : list NeumSearchResult.t)
  : py (state t W) (list NeumSearchResult.t) :=
  ret (matches ++ [NeumSearchResult.Build (result.1.1) (result.2) (result.1.2)]).

Definition search (vector : list float) (number_of_results : Z) (pipeline_id : string)
  : py (state t W) (list NeumSearchResult.t) :=
  database_connection <- attr database_connection ;;
  vx <- client database_connection ;;
  collection_name <- attr collection_name ;;
  let collection_name := resolve collection_name pipeline_id in
  db <-
    try_finally
      (try_except
         (get vx collection_name)
         (fun _ =>
            raise (Exn SupabaseQueryException
                     ("Collection " +:+ collection_name +:+ " does not exist"))))
      (close vx) ;;
  results <-
    try_finally
      (try_except
         (query db vector true true number_of_results)
         (fun e =>
            raise (Exn SupabaseQueryException
                     ("Error querying vectors from Supabase. Exception: " +:+ str e))))
      (close vx) ;;
  for_each results append_match [].

Definition info (pipeline_id : string) : py (state t W) NeumSinkInfo.t :=
  database_connection <- attr database_connection ;;
  vx <- client database_connection ;;
  collection_name <- attr collection_name ;;
  let collection_name := resolve collection_name pipeline_id in
  db <-
    try_finally
      (try_except
         (get vx collection_name)
         (fun _ =>
            raise (Exn SupabaseIndexInfoException
                     ("Collection " +:+ collection_name +:+ " does not exist"))))
      (close vx) ;;
  number_of_vectors <- count db ;;
  ret (NeumSinkInfo.Build number_of_vectors).

End Methods.
End SupabaseSink.

(** ** Reading a transcript *)

(** The events a run added to the transcript. *)
Definition added {O W} (s s' : state O W) : list event :=
  drop (length (log s)) (log s').

(** The namespace or collection a call names, when it names one. *)
Definition call_name (c : call) : option string :=
  match c with
  | Call_Index_upsert _ ns => Some ns
  | Call_Index_query _ _ ns _ _ => Some ns
  | Call_get_or_create_collection name _ => Some name
  | Call_get_collection name => Some name
  | _ => None
  end.

(** Every call of the transcript that names a namespace or collection
    names [name]. *)
Definition targets_only (name : string) (evs : list event) : Prop :=
  Forall (fun ev => forall n, call_name (ev_call ev) = Some n -> n = name) evs.

(** The batches sent to [index.upsert], in the order sent. *)
Definition upsert_batches (evs : list event) : list (list record_tuple) :=
  omap (fun ev => match ev_call ev with
                  | Call_Index_upsert vectors _ => Some vectors
                  | _ => None
                  end) evs.

(** The ['upserted_count'] of every [index.upsert] that was answered. *)
Definition acknowledged (evs : list event) : list Z :=
  omap (fun ev => match ev_call ev, ev_reply ev with
                  | Call_Index_upsert _ _, Return (ReplyUpsert r) => r !! "upserted_count"
                  | _, _ => None
                  end) evs.

(** The record lists sent to a collection's [upsert]. *)
Definition collection_upserts (evs : list event) : list (list record_tuple) :=
  omap (fun ev => match ev_call ev with
                  | Call_Collection_upsert records => Some records
                  | _ => None
                  end) evs.

Definition sum (l : list Z) : Z := foldr Z.add 0 l.

(** Whether the run leaves a vecs client connected: a client is connected
    once [create_client] has returned it and until a [disconnect] has
    returned. *)
Definition connected (evs : list event) : bool :=
  foldl (fun c ev =>
           match ev_call ev, ev_reply ev with
           | Call_create_client _, Return _ => true
           | Call_disconnect, Return _ => false
           | _, _ => c
           end) false evs.

(** ** Two in-memory services, to run the connectors on *)

Abbreviation Stored := (gmap string (list float * Metadata)).

Definition put (m : Stored) (r : record_tuple) : Stored :=
  <[r.1.1 := (r.1.2, r.2)]> m.

(** An index that checks the API key, keeps one dictionary of vectors per
    namespace and acknowledges every vector of a batch.  A namespace exists
    once something was upserted into it; a query on any other namespace is
    answered with no matches.  The statistics list the namespaces under
    ["namespaces"], as the service does. *)
Module MemIndex.

Record world := World {
  valid_key : string;
  namespaces : gmap string Stored
}.

Definition init (k e : string) (w : world) : outcome unit * world :=
  if bool_decide (k = valid_key w) then (Return tt, w)
  else (Raise (Exn (ClientError "UnauthorizedException") "Invalid API Key"), w).

Definition stats (w : world) : IndexStats :=
  {[ "namespaces" :=
       (fun m : Stored => {[ "vector_count" := Z.of_nat (size m) ]} : gmap string Z)
         <$> namespaces w ]}.

Definition upsert (vectors : list record_tuple) (ns : string) (w : world)
  : outcome (gmap string Z) * world :=
  let m := default ∅ (namespaces w !! ns) in
  (Return {[ "upserted_count" := Z.of_nat (length vectors) ]},
   World (valid_key w) (<[ns := foldl put m vectors]> (namespaces w))).

Definition matches (m : Stored) : list ScoredVector :=
  (fun kv : string * (list float * Metadata) =>
     {| sv_id := Some kv.1;
        sv_score := Some (S754_zero false);
        sv_metadata := Some kv.2.2 |})
    <$> map_to_list m.

Definition query (top_k : Z) (ns : string) (w : world)
  : outcome (gmap string (list ScoredVector)) * world :=
  (Return {[ "matches" :=
               take (Z.to_nat top_k) (matches (default ∅ (namespaces w !! ns))) ]}, w).

#[global] Instance lib : PineconeLib world := {|
  IndexHandle := string;
  pinecone_init := init;
  pinecone_Index := fun name w => (Return name, w);
  describe_index_stats := fun _ w => (Return (stats w), w);
  Index_upsert := fun _ => upsert;
  Index_query := fun _ _ top_k ns _ _ => query top_k ns
|}.

End MemIndex.

(** A database that may be unreachable, counts its open client
    connections and keeps one dictionary of records per collection.  A
    collection exists once it was created; a query for more than 1000 rows
    is refused. *)
Module MemVecs.

Record world := World {
  reachable : bool;
  connections : nat;
  collections : gmap string Stored
}.

Definition connect (conn : string) (w : world) : outcome unit * world :=
  if reachable w then (Return tt, World true (S (connections w)) (collections w))
  else (Raise (Exn (ClientError "OperationalError") "could not connect to server"), w).

Definition get_or_create (name : string) (dimension : Z) (w : world)
  : outcome string * world :=
  match collections w !! name with
  | Some _ => (Return name, w)
  | None => (Return name, World (reachable w) (connections w) (<[name := ∅]> (collections w)))
  end.

Definition get (name : string) (w : world) : outcome string * world :=
  match collections w !! name with
  | Some _ => (Return name, w)
  | None =>
      (Raise (Exn (ClientError "CollectionNotFound")
                "No collection found with requested name"), w)
  end.

Definition close (w : world) : outcome unit * world :=
  (Return tt, World (reachable w) (Nat.pred (connections w)) (collections w)).

Definition upsert (db : string) (records : list record_tuple) (w : world)
  : outcome unit * world :=
  let m := default ∅ (collections w !! db) in
  (Return tt,
   World (reachable w) (connections w) (<[db := foldl put m records]> (collections w))).

Definition rows (m : Stored) : list vecs_row :=
  (fun kv : string * (list float * Metadata) => (kv.1, S754_zero false, kv.2.2))
    <$> map_to_list m.

Definition query (db : string) (limit : Z) (w : world) : outcome (list vecs_row) * world :=
  if (1000 <? limit)%Z then
    (Raise (Exn (ClientError "ArgError") "limit must be <= 1000"), w)
  else (Return (take (Z.to_nat limit) (rows (default ∅ (collections w !! db)))), w).

Definition count (db : string) (w : world) : outcome Z * world :=
  (Return (Z.of_nat (size (default ∅ (collections w !! db)))), w).

#[global] Instance lib : VecsLib world := {|
  Client := unit;
  Collection := string;
  create_client := connect;
  get_or_create_collection := fun _ => get_or_create;
  get_collection := fun _ => get;
  disconnect := fun _ => close;
  Collection_upsert := upsert;
  Collection_query := fun db _ _ _ limit => query db limit;
  table_count := count
|}.

End MemVecs.

(** A vector with [dim] zero coordinates and no metadata. *)
Definition sample (id : string) (dim : nat) : NeumVector.t :=
  NeumVector.Build id (replicate dim (S754_zero false)) ∅.

(** [n] sample vectors of dimension [dim], with distinct ids. *)
Definition samples (n dim : nat) : list NeumVector.t :=
  (fun i => sample (String (Ascii.ascii_of_nat (48 + i)) "") dim) <$> seq 0 n.

(** The first exception a library call of the transcript ended in. *)
Fixpoint first_raise (evs : list event) : option exn :=
  match evs with
  | [] => None
  | ev :: evs' =>
      match ev_reply ev with
      | Raise e => Some e
      | Return _ => first_raise evs'
      end
  end.

(** A computation that leaves the connector object as it found it. *)
Definition keeps_self {O W A} (m : py (state O W) A) : Prop :=
  forall s, self (m s).2 = self s.

(** The batch the loop of [PineconeSink.store] cuts at index [i]. *)
Definition batch_at (vectors : list NeumVector.t) (i : nat) : list record_tuple :=
  as_tuple <$>
    slice vectors i (Nat.min (i + PineconeSink.batch_size) (length vectors)).

(** ** States to run the connectors from *)

(** A PineconeSink with the right key and no namespace configured, on an
    empty index. *)
Definition pinecone_fresh : state PineconeSink.t MemIndex.world :=
  State (PineconeSink.Build "key" "us-west1-gcp" "idx" None) (MemIndex.World "key" ∅) [].

(** The same with the namespace ["custom"] configured. *)
Definition pinecone_custom : state PineconeSink.t MemIndex.world :=
  State (PineconeSink.Build "key" "us-west1-gcp" "idx" (Some "custom"))
    (MemIndex.World "key" ∅) [].

(** A PineconeSink whose API key the service rejects. *)
Definition pinecone_bad_key : state PineconeSink.t MemIndex.world :=
  State (PineconeSink.Build "wrong" "us-west1-gcp" "idx" None) (MemIndex.World "key" ∅) [].

(** A SupabaseSink with no collection name configured, on an empty,
    reachable database. *)
Definition supabase_fresh : state SupabaseSink.t MemVecs.world :=
  State (SupabaseSink.Build "postgresql://db" None) (MemVecs.World true 0 ∅) [].

(** The same with the collection name ["custom"] configured. *)
Definition supabase_custom : state SupabaseSink.t MemVecs.world :=
  State (SupabaseSink.Build "postgresql://db" (Some "custom")) (MemVecs.World true 0 ∅) [].

(** A SupabaseSink whose database cannot be reached. *)
Definition supabase_unreachable : state SupabaseSink.t MemVecs.world :=
  State (SupabaseSink.Build "postgresql://db" None) (MemVecs.World false 0 ∅) [].

(** [pinecone_fresh] after three vectors were stored for pipeline ["42"]. *)
Definition pinecone_three : state PineconeSink.t MemIndex.world :=
  (PineconeSink.store "42" (samples 3 8) "" pinecone_fresh).2.

(** A computation whose every exception is of class [c]. *)
Definition raises_only {St A} (c : exn_class) (m : py St A) : Prop :=
  forall s e, (m s).1 = Raise e -> class_of e = c.

(** [supabase_fresh] after three vectors were stored for pipeline ["42"]. *)
Definition supabase_three : state SupabaseSink.t MemVecs.world :=
  (SupabaseSink.store "42" (samples 3 8) "" supabase_fresh).2.

(** ** Services that answer from a script *)

(** An index whose every answer is scripted: [init], [Index],
    [describe_index_stats] and [query] give their scripted outcome on every
    call, the successive [upsert]s take theirs from a list. *)
Module CannedIndex.

Record world := World {
  connects : outcome unit;
  opens : outcome unit;
  statistics : outcome IndexStats;
  upserts : list (outcome (gmap string Z));
  answer : outcome (gmap string (list ScoredVector))
}.

Definition upsert (w : world) : outcome (gmap string Z) * world :=
  match upserts w with
  | [] => (Raise (Exn (ClientError "ServiceException") "no answer"), w)
  | r :: rest => (r, World (connects w) (opens w) (statistics w) rest (answer w))
  end.

#[global] Instance lib : PineconeLib world := {|
  IndexHandle := unit;
  pinecone_init := fun _ _ w => (connects w, w);
  pinecone_Index := fun _ w => (opens w, w);
  describe_index_stats := fun _ w => (statistics w, w);
  Index_upsert := fun _ _ _ => upsert;
  Index_query := fun _ _ _ _ _ _ w => (answer w, w)
|}.

End CannedIndex.

(** A database whose every answer is scripted: each entry point gives
    its scripted outcome on every call. *)
Module CannedVecs.

Record script := Script {
  connects : outcome unit;
  creates : outcome unit;
  finds : outcome unit;
  closes : outcome unit;
  upserts : outcome unit;
  answers : outcome (list vecs_row);
  counts : outcome Z
}.

Definition lib (sc : script) : VecsLib unit := {|
  Client := unit;
  Collection := unit;
  create_client := fun _ w => (connects sc, w);
  get_or_create_collection := fun _ _ _ w => (creates sc, w);
  get_collection := fun _ _ w => (finds sc, w);
  disconnect := fun _ w => (closes sc, w);
  Collection_upsert := fun _ _ w => (upserts sc, w);
  Collection_query := fun _ _ _ _ _ w => (answers sc, w);
  table_count := fun _ w => (counts sc, w)
|}.

End CannedVecs.

(** A library error, as a scripted service raises it. *)
Definition service_error (message : string) : exn :=
  Exn (ClientError "ServiceException") message.

(** The calls that change what the service stores. *)
Definition writes (c : call) : bool :=
  match c with
  | Call_Index_upsert _ _
  | Call_get_or_create_collection _ _
  | Call_Collection_upsert _ => true
  | _ => false
  end.

(** Whether some answered [index.upsert] of the transcript carries no
    ['upserted_count']. *)
Definition unacknowledged (evs : list event) : bool :=
  existsb (fun ev => match ev_call ev, ev_reply ev with
                     | Call_Index_upsert _ _, Return (ReplyUpsert r) =>
                         bool_decide (r !! "upserted_count" = None)
                     | _, _ => false
                     end) evs.

(** What [PineconeSink.search] makes of one match: a result with the
    match's id, metadata and score, or the KeyError of the first entry
    that is missing, in the order the connector subscripts them. *)
Definition of_match (m : ScoredVector) : outcome NeumSearchResult.t :=
  match sv_id m, sv_metadata m, sv_score m with
  | None, _, _ => Raise (Exn KeyError "'id'")
  | Some _, None, _ => Raise (Exn KeyError "'metadata'")
  | Some _, Some _, None => Raise (Exn KeyError "'score'")
  | Some id, Some metadata, Some score =>
      Return (NeumSearchResult.Build id metadata score)
  end.

(** And of a list of matches: the results in order, or the error of the
    first match that lacks an entry. *)
Fixpoint of_matches (ms : list ScoredVector) : outcome (list NeumSearchResult.t) :=
  match ms with
  | [] => Return []
  | m :: ms' =>
      match of_match m with
      | Raise e => Raise e
      | Return r => outcome_map (cons r) (of_matches ms')
      end
  end.

(** A match that carries all three entries, and the result that carries
    the same three. *)
Definition complete (m : ScoredVector) : Prop :=
  is_Some (sv_id m) /\ is_Some (sv_metadata m) /\ is_Some (sv_score m).

Definition carries (m : ScoredVector) (r : NeumSearchResult.t) : Prop :=
  sv_id m = Some (NeumSearchResult.id r) /\
  sv_metadata m = Some (NeumSearchResult.metadata r) /\
  sv_score m = Some (NeumSearchResult.score r).

(** What [SupabaseSink.search] makes of one row. *)

Definition of_row (row : vecs_row) : NeumSearchResult.t :=
  NeumSearchResult.Build (row.1.1) (row.2) (row.1.2).

(** A PineconeSink on a scripted index: the connection is set up, the
    first batch is answered with a count of 32, the second call fails. *)
Definition pinecone_failing_second_batch : state PineconeSink.t CannedIndex.world :=
  State (PineconeSink.Build "key" "us-west1-gcp" "idx" None)
    (CannedIndex.World (Return tt) (Return tt) (Return ∅)
       [Return {[ "upserted_count" := 32 ]}; Raise (service_error "timed out")]
       (Return ∅))
    [].

(** The same where the first batch is answered without a count. *)
Definition pinecone_answer_without_count : state PineconeSink.t CannedIndex.world :=
  State (PineconeSink.Build "key" "us-west1-gcp" "idx" None)
    (CannedIndex.World (Return tt) (Return tt) (Return ∅)
       [Return ∅; Return {[ "upserted_count" := 8 ]}]
       (Return ∅))
    [].

(** The same where the service counts fewer vectors than it was sent. *)
Definition pinecone_partial_count : state PineconeSink.t CannedIndex.world :=
  State (PineconeSink.Build "key" "us-west1-gcp" "idx" None)
    (CannedIndex.World (Return tt) (Return tt) (Return ∅)
       [Return {[ "upserted_count" := 30 ]}; Return {[ "upserted_count" := 5 ]}]
       (Return ∅))
    [].

(** What a run starts with: [first] is the first call; nothing follows
    it when it raises; when it returns and [second] is given, [second] is
    the call made next. *)
Definition starts_with (first : call) (second : option call) (evs : list event) : Prop :=
  exists r rest,
    evs = Ev first r :: rest /\
    match r with
    | Raise _ => rest = []
    | Return _ =>
        match second with
        | Some c => exists r' rest', rest = Ev c r' :: rest'
        | None => True
        end
    end.

(** Scripts for a database: every call returns but [upsert], which fails;
    every call returns but [get_collection], which fails for a reason other
    than a missing collection; every call returns but [disconnect], which
    fails. *)
Definition failing_upsert : CannedVecs.script :=
  CannedVecs.Script (Return tt) (Return tt) (Return tt) (Return tt)
    (Raise (service_error "disk full")) (Return []) (Return 0).

Definition lost_connection : CannedVecs.script :=
  CannedVecs.Script (Return tt) (Return tt)
    (Raise (service_error "server closed the connection")) (Return tt)
    (Return tt) (Return []) (Return 0).

Definition failing_disconnect : CannedVecs.script :=
  CannedVecs.Script (Return tt) (Return tt) (Return tt)
    (Raise (service_error "pool already disposed"))
    (Return tt) (Return []) (Return 7).

(** A SupabaseSink with no collection name configured, on a scripted
    database. *)
Definition supabase_scripted : state SupabaseSink.t unit :=
  State (SupabaseSink.Build "postgresql://db" None) tt [].

(** Every call returns but the read of the count, which fails. *)
Definition failing_count : CannedVecs.script :=
  CannedVecs.Script (Return tt) (Return tt) (Return tt) (Return tt)
    (Return tt) (Return []) (Raise (service_error "count could not be read")).

(** A PineconeSink on a scripted index whose statistics carry, under
    ["namespace"], a summary of three vectors for pipeline ["42"], and
    whose query answers one full match and one match without metadata. *)
Definition pinecone_scripted_answers : state PineconeSink.t CannedIndex.world :=
  State (PineconeSink.Build "key" "us-west1-gcp" "idx" None)
    (CannedIndex.World (Return tt) (Return tt)
       (Return {[ "namespace" :=
                    {[ "pipeline_42" := {[ "vector_count" := 3 ]} ]} ]})
       []
       (Return {[ "matches" :=
                    [ {| sv_id := Some "a";
                         sv_score := Some (S754_zero false);
                         sv_metadata := Some ∅ |};
                      {| sv_id := Some "b";
                         sv_score := Some (S754_zero false);
                         sv_metadata := None |} ] ]}))
    [].

(** * Properties *)

(** ** The connector object is only read *)

Section Frame.
Context {O W : Type}.
Implicit Types s : state O W.

Lemma keeps_self_ret {A} (a : A) : keeps_self (O:=O) (W:=W) (ret a).
Proof. intros s. reflexivity. Qed.

Lemma keeps_self_raise {A} e : keeps_self (O:=O) (W:=W) (A:=A) (raise e).
Proof. intros s. reflexivity. Qed.

Lemma keeps_self_attr {A} (f : O -> A) : keeps_self (W:=W) (attr f).
Proof. intros s. reflexivity. Qed.

Lemma keeps_self_invoke {A} c (f : A -> reply) (op : W -> outcome A * W) :
  keeps_self (O:=O) (invoke c f op).
Proof. intros s. unfold invoke. destruct (op (world s)). reflexivity. Qed.

Lemma keeps_self_subscript {V} (d : gmap string V) k :
  keeps_self (O:=O) (W:=W) (subscript d k).
Proof. intros s. unfold subscript. destruct (d !! k); reflexivity. Qed.

Lemma keeps_self_item {A} (l : list A) i : keeps_self (O:=O) (W:=W) (item l i).
Proof. intros s. unfold item. destruct (l !! i); reflexivity. Qed.

Lemma keeps_self_entry {A} (o : option A) k : keeps_self (O:=O) (W:=W) (entry o k).
Proof. intros s. unfold entry. destruct o; reflexivity. Qed.

Lemma keeps_self_bind {A B} (m : py (state O W) A) (k : A -> py (state O W) B) :
  keeps_self m -> (forall a, keeps_self (k a)) -> keeps_self (bind m k).
Proof.
  intros Hm Hk s. unfold bind. specialize (Hm s).
  destruct (m s) as [[a|e] s1]; simpl in *; [|assumption].
  rewrite Hk. assumption.
Qed.

Lemma keeps_self_try_except {A} (body : py (state O W) A) handler :
  keeps_self body -> (forall e, keeps_self (handler e)) ->
  keeps_self (try_except body handler).
Proof.
  intros Hb Hh s. unfold try_except. specialize (Hb s).
  destruct (body s) as [[a|e] s1]; simpl in *; [assumption|].
  rewrite Hh. assumption.
Qed.

Lemma keeps_self_try_finally {A} (body : py (state O W) A) final :
  keeps_self body -> keeps_self final -> keeps_self (try_finally body final).
Proof.
  intros Hb Hf s. unfold try_finally. specialize (Hb s).
  destruct (body s) as [r s1]. specialize (Hf s1).
  destruct (final s1) as [[u|e] s2]; simpl in *; congruence.
Qed.

Lemma keeps_self_for_each {A Acc} (xs : list A) (body : A -> Acc -> py (state O W) Acc) :
  (forall x acc, keeps_self (body x acc)) ->
  forall acc, keeps_self (for_each xs body acc).
Proof.
  intros Hb. induction xs as [|x xs IH]; intros acc; simpl.
  - apply keeps_self_ret.
  - apply keeps_self_bind; [apply Hb | apply IH].
Qed.

End Frame.

Create HintDb frame.
#[local] Hint Resolve keeps_self_ret keeps_self_raise keeps_self_attr keeps_self_invoke
  keeps_self_subscript keeps_self_item keeps_self_entry : frame.

Ltac frame :=
  repeat first
    [ progress (intros; cbv zeta beta)
    | apply keeps_self_bind
    | apply keeps_self_try_except
    | apply keeps_self_try_finally
    | apply keeps_self_for_each
    | match goal with |- keeps_self (if ?b then _ else _) => destruct b end
    | solve [auto with frame] ].

Section PineconeFrame.
Context {W : Type} {lib : PineconeLib W}.

Lemma pinecone_validation_keeps_self : keeps_self PineconeSink.validation.
Proof. unfold PineconeSink.validation, PineconeSink.init, PineconeSink.Index,
         PineconeSink.stats. frame. Qed.

Lemma pinecone_store_keeps_self pid vs task : keeps_self (PineconeSink.store pid vs task).
Proof.
  unfold PineconeSink.store, PineconeSink.store_batch, PineconeSink.init,
    PineconeSink.Index, PineconeSink.upsert. frame.
Qed.

Lemma pinecone_search_keeps_self v k pid : keeps_self (PineconeSink.search v k pid).
Proof.
  unfold PineconeSink.search, PineconeSink.init, PineconeSink.Index, PineconeSink.query,
    PineconeSink.append_match.
  frame.
Qed.

Lemma pinecone_info_keeps_self pid : keeps_self (PineconeSink.info pid).
Proof.
  unfold PineconeSink.info, PineconeSink.init, PineconeSink.Index, PineconeSink.stats.
  frame.
Qed.

End PineconeFrame.

Section SupabaseFrame.
Context {W : Type} {lib : VecsLib W}.

Lemma supabase_validation_keeps_self : keeps_self SupabaseSink.validation.
Proof. unfold SupabaseSink.validation, SupabaseSink.client. frame. Qed.

Lemma supabase_store_keeps_self pid vs task : keeps_self (SupabaseSink.store pid vs task).
Proof.
  unfold SupabaseSink.store, SupabaseSink.client, SupabaseSink.get_or_create,
    SupabaseSink.upsert, SupabaseSink.close, SupabaseSink.append_record. frame.
Qed.

Lemma supabase_search_keeps_self v k pid : keeps_self (SupabaseSink.search v k pid).
Proof.
  unfold SupabaseSink.search, SupabaseSink.client, SupabaseSink.get,
    SupabaseSink.query, SupabaseSink.close, SupabaseSink.append_match. frame.
Qed.

Lemma supabase_info_keeps_self pid : keeps_self (SupabaseSink.info pid).
Proof.
  unfold SupabaseSink.info, SupabaseSink.client, SupabaseSink.get,
    SupabaseSink.count, SupabaseSink.close. frame.
Qed.

End SupabaseFrame.

(** C10. No operation of either connector changes the connector's
    configuration: after [validation], [store], [search] or [info] the
    object, and so each of [api_key], [environment], [index], [namespace]
    (Pinecone) and [database_connection], [collection_name] (Supabase), is
    what it was before; the substituted default name lives in a local only. *)
Theorem configuration_unchanged_by_every_operation :
  (forall W (lib : PineconeLib W) (s : state PineconeSink.t W)
          pipeline_id vectors task_id vector k,
      self (PineconeSink.validation s).2 = self s /\
      self (PineconeSink.store pipeline_id vectors task_id s).2 = self s /\
      self (PineconeSink.search vector k pipeline_id s).2 = self s /\
      self (PineconeSink.info pipeline_id s).2 = self s) /\
  (forall W (lib : VecsLib W) (s : state SupabaseSink.t W)
          pipeline_id vectors task_id vector k,
      self (SupabaseSink.validation s).2 = self s /\
      self (SupabaseSink.store pipeline_id vectors task_id s).2 = self s /\
      self (SupabaseSink.search vector k pipeline_id s).2 = self s /\
      self (SupabaseSink.info pipeline_id s).2 = self s).
Proof.
  split; intros; repeat split.
  - apply pinecone_validation_keeps_self.
  - apply pinecone_store_keeps_self.
  - apply pinecone_search_keeps_self.
  - apply pinecone_info_keeps_self.
  - apply supabase_validation_keeps_self.
  - apply supabase_store_keeps_self.
  - apply supabase_search_keeps_self.
  - apply supabase_info_keeps_self.
Qed.

(** ** Running a method call by call *)

Lemma added_app {O W} (s : state O W) o w evs :
  added s (State o w (log s ++ evs)) = evs.
Proof. unfold added. simpl. apply drop_app_length. Qed.

Ltac unfold_py :=
  unfold invoke, bind, try_except, try_finally, attr, ret, raise, object; simpl.

(** Case on how the next library call ends. *)
Ltac lib_call :=
  match goal with
  | |- context [pinecone_init ?a ?b ?c] =>
      destruct (pinecone_init a b c) as [[[]|?] ?] eqn:?
  | |- context [pinecone_Index ?a ?b] =>
      destruct (pinecone_Index a b) as [[?|?] ?] eqn:?
  | |- context [describe_index_stats ?a ?b] =>
      destruct (describe_index_stats a b) as [[?|?] ?] eqn:?
  | |- context [Index_upsert ?a ?b ?c ?d] =>
      destruct (Index_upsert a b c d) as [[?|?] ?] eqn:?
  | |- context [Index_query ?a ?b ?c ?d ?e ?f ?g] =>
      destruct (Index_query a b c d e f g) as [[?|?] ?] eqn:?
  | |- context [create_client ?a ?b] =>
      destruct (create_client a b) as [[?|?] ?] eqn:?
  | |- context [get_or_create_collection ?a ?b ?c ?d] =>
      destruct (get_or_create_collection a b c d) as [[?|?] ?] eqn:?
  | |- context [get_collection ?a ?b ?c] =>
      destruct (get_collection a b c) as [[?|?] ?] eqn:?
  | |- context [disconnect ?a ?b] =>
      destruct (disconnect a b) as [[[]|?] ?] eqn:?
  | |- context [Collection_upsert ?a ?b ?c] =>
      destruct (Collection_upsert a b c) as [[[]|?] ?] eqn:?
  | |- context [Collection_query ?a ?b ?c ?d ?e ?f] =>
      destruct (Collection_query a b c d e f) as [[?|?] ?] eqn:?
  | |- context [table_count ?a ?b] =>
      destruct (table_count a b) as [[?|?] ?] eqn:?
  end; simpl.

Ltac tidy_log := rewrite <- ?app_assoc, ?added_app; simpl.

(** C6. [validation] of either connector has two outcomes only.  When every
    library call of the check returns (Pinecone: [init], [Index],
    [describe_index_stats]; Supabase: [create_client]) it returns [True];
    when one raises, whatever it raises, the caller gets the connector's
    ConnectionException with the library's message embedded. *)
Theorem validation_true_or_connection_exception :
  (forall W (lib : PineconeLib W) (s : state PineconeSink.t W),
      let r := (PineconeSink.validation s).1 in
      let evs := added s (PineconeSink.validation s).2 in
      match first_raise evs with
      | None =>
          r = Return true /\
          ev_call <$> evs =
            [Call_pinecone_init (PineconeSink.api_key (self s))
               (PineconeSink.environment (self s));
             Call_pinecone_Index (PineconeSink.index (self s));
             Call_describe_index_stats]
      | Some e =>
          r = Raise (Exn PineconeConnectionException
                       ("Pinecone connection couldn't be initialized. See exception: "
                        +:+ str e))
      end) /\
  (forall W (lib : VecsLib W) (s : state SupabaseSink.t W),
      let r := (SupabaseSink.validation s).1 in
      let evs := added s (SupabaseSink.validation s).2 in
      match first_raise evs with
      | None =>
          r = Return true /\
          ev_call <$> evs =
            [Call_create_client (SupabaseSink.database_connection (self s))]
      | Some e =>
          r = Raise (Exn SupabaseConnectionException
                       ("Supabase connection couldn't be initialized. See exception: "
                        +:+ str e))
      end).
Proof.
  split; intros W lib s.
  - unfold PineconeSink.validation, PineconeSink.init, PineconeSink.Index,
      PineconeSink.stats.
    unfold_py.
    lib_call; [lib_call; [lib_call|]|]; tidy_log; auto.
  - unfold SupabaseSink.validation, SupabaseSink.client.
    unfold_py.
    lib_call; tidy_log; auto.
Qed.

(** ** [range] and slices *)

Lemma range_from_below fuel start stop step :
  Forall (fun i => (i < stop)%nat) (range_from fuel start stop step).
Proof.
  revert start. induction fuel as [|fuel IH]; intros start; simpl; [constructor|].
  destruct (start <? stop)%nat eqn:E; [|constructor].
  apply Nat.ltb_lt in E. constructor; [assumption|apply IH].
Qed.

Lemma slices_concat {A} (l : list A) step fuel start :
  (0 < step)%nat -> (length l - start <= fuel)%nat ->
  concat ((fun i => slice l i (Nat.min (i + step) (length l))) <$>
            range_from fuel start (length l) step) = drop start l.
Proof.
  intros Hstep. revert start.
  induction fuel as [|fuel IH]; intros start Hfuel; simpl.
  - rewrite drop_ge by lia. reflexivity.
  - destruct (start <? length l)%nat eqn:E.
    + apply Nat.ltb_lt in E. simpl. rewrite IH by lia. unfold slice.
      destruct (Nat.le_gt_cases (start + step) (length l)) as [Hle|Hgt].
      * rewrite Nat.min_l by lia.
        replace (start + step - start)%nat with step by lia.
        rewrite <- (take_drop step (drop start l)) at 2.
        rewrite drop_drop. reflexivity.
      * rewrite Nat.min_r by lia.
        rewrite (drop_ge l (start + step)) by lia.
        rewrite app_nil_r. apply take_ge. rewrite length_drop. lia.
    + apply Nat.ltb_ge in E. rewrite drop_ge by lia. reflexivity.
Qed.

Lemma slice_length {A} (l : list A) i step :
  (i < length l)%nat ->
  length (slice l i (Nat.min (i + step) (length l))) = Nat.min step (length l - i).
Proof. intros Hi. unfold slice. rewrite length_take, length_drop. lia. Qed.

Lemma slices_full_but_last {A} (l : list A) step fuel start k i :
  (0 < step)%nat ->
  range_from fuel start (length l) step !! k = Some i ->
  (S k < length (range_from fuel start (length l) step))%nat ->
  (i + step < length l)%nat.
Proof.
  intros Hstep. revert start k.
  induction fuel as [|fuel IH]; intros start k; simpl; [discriminate|].
  destruct (start <? length l)%nat eqn:E; [|discriminate].
  destruct k as [|k]; simpl.
  - intros [= <-] Hlen.
    destruct fuel as [|fuel]; simpl in Hlen; [lia|].
    destruct (start + step <? length l)%nat eqn:E'; simpl in Hlen; [|lia].
    apply Nat.ltb_lt in E'. assumption.
  - intros Hk Hlen. apply (IH (start + step)%nat k); [assumption|lia].
Qed.

Lemma sum_lengths {A} (bs : list (list A)) :
  sum ((Z.of_nat ∘ length) <$> bs) = Z.of_nat (length (concat bs)).
Proof.
  induction bs as [|b bs IH]; [reflexivity|].
  rewrite fmap_cons. simpl concat. rewrite length_app, Nat2Z.inj_add, <- IH.
  reflexivity.
Qed.

Lemma concat_fmap_slices {A B I} (f : A -> B) (g : I -> list A) (idx : list I) :
  concat ((fun i => f <$> g i) <$> idx) = f <$> concat (g <$> idx).
Proof.
  induction idx as [|i idx IH]; [reflexivity|].
  rewrite !fmap_cons. simpl concat. rewrite fmap_app, IH. reflexivity.
Qed.

(** The batches of a whole run of the loop: they partition the input in
    order, none is empty or longer than [batch_size], and only the last
    may be short. *)
Lemma batches_partition (vs : list NeumVector.t) :
  let batches := batch_at vs <$> range 0 (length vs) PineconeSink.batch_size in
  concat batches = as_tuple <$> vs /\
  Forall (fun b => (0 < length b <= 32)%nat) batches /\
  (forall k b, batches !! k = Some b -> (S k < length batches)%nat ->
               length b = 32%nat).
Proof.
  unfold range, batch_at, PineconeSink.batch_size. simpl. repeat split.
  - rewrite concat_fmap_slices, slices_concat by lia. reflexivity.
  - apply Forall_fmap.
    eapply Forall_impl; [apply range_from_below|].
    intros i Hi. simpl in *. rewrite length_fmap, slice_length by assumption. lia.
  - intros k b Hk Hlen. rewrite length_fmap in Hlen.
    rewrite list_lookup_fmap in Hk.
    destruct (range_from (length vs) 0 (length vs) 32 !! k) as [i|] eqn:Ei;
      [|discriminate].
    simpl in Hk. injection Hk as <-.
    pose proof (slices_full_but_last vs 32 _ _ _ _ ltac:(lia) Ei Hlen) as Hfull.
    rewrite length_fmap, slice_length by lia. lia.
Qed.

Lemma added_of_log {O W} (s s' : state O W) evs :
  log s' = log s ++ evs -> added s s' = evs.
Proof. intros H. unfold added. rewrite H. apply drop_app_length. Qed.

Lemma targets_only_cons name c r evs :
  (forall n, call_name c = Some n -> n = name) ->
  targets_only name evs -> targets_only name (Ev c r :: evs).
Proof. intros Hc He. constructor; assumption. Qed.

(** ** The batching loop of [PineconeSink.store] *)

Section PineconeStoreLoop.
Context {W : Type} {lib : PineconeLib W}.
Variables (h : IndexHandle) (ns : string) (vs : list NeumVector.t).

(** Whatever the index answers, the loop only sends batches, each to [ns],
    and each cut from [vs] at the index the loop stands at. *)
Lemma store_loop_sends idx acc (s : state PineconeSink.t W) :
  exists evs,
    log (for_each idx (PineconeSink.store_batch h ns vs) acc s).2 = log s ++ evs /\
    targets_only ns evs /\
    upsert_batches evs `prefix_of` (batch_at vs <$> idx).
Proof.
  revert acc s. induction idx as [|i idx IH]; intros acc s; simpl.
  - exists []. rewrite app_nil_r. repeat split; [constructor|apply prefix_nil].
  - unfold bind at 1. unfold PineconeSink.store_batch at 1.
    unfold PineconeSink.upsert, subscript. unfold_py.
    fold (batch_at vs i).
    lib_call.
    + destruct (_ !! "upserted_count") as [c|]; simpl.
      * match goal with |- context [for_each idx _ ?a ?s1] =>
          destruct (IH a s1) as (evs & Hlog & Ht & Hb) end.
        simpl in Hlog. eexists (_ :: evs). rewrite Hlog, <- app_assoc. simpl.
        repeat split; [|apply prefix_cons; exact Hb].
        apply targets_only_cons; [|exact Ht]. simpl. congruence.
      * eexists [_]. repeat split; simpl.
        -- apply targets_only_cons; [simpl; congruence|constructor].
        -- apply prefix_cons, prefix_nil.
    + eexists [_]. repeat split; simpl.
      * apply targets_only_cons; [simpl; congruence|constructor].
      * apply prefix_cons, prefix_nil.
Qed.

(** When the index answers every batch with an ['upserted_count'], the
    loop runs to its end and returns the sum of the counts. *)
Lemma store_loop_acknowledged idx acc (s : state PineconeSink.t W) :
  (forall v w, exists r c w',
      Index_upsert h v ns w = (Return r, w') /\ r !! "upserted_count" = Some c) ->
  exists evs s',
    for_each idx (PineconeSink.store_batch h ns vs) acc s
      = (Return (acc + sum (acknowledged evs)), s') /\
    log s' = log s ++ evs /\
    upsert_batches evs = batch_at vs <$> idx /\
    length (acknowledged evs) = length idx.
Proof.
  intros Hack. revert acc s. induction idx as [|i idx IH]; intros acc s; simpl.
  - exists [], s. rewrite app_nil_r, Z.add_0_r. auto.
  - unfold bind at 1. unfold PineconeSink.store_batch at 1.
    unfold PineconeSink.upsert, subscript. unfold_py.
    fold (batch_at vs i).
    match goal with |- context [Index_upsert h ?v ns ?w] =>
      destruct (Hack v w) as (r & c & w' & -> & Hc) end.
    simpl. rewrite Hc. simpl.
    match goal with |- context [for_each idx _ ?a ?s1] =>
      destruct (IH a s1) as (evs & s' & -> & Hlog & Hb & Hlen) end.
    simpl in Hlog.
    exists (Ev (Call_Index_upsert (batch_at vs i) ns) (Return (ReplyUpsert r)) :: evs), s'.
    rewrite Hlog, <- app_assoc. simpl. rewrite Hc. simpl.
    rewrite Hb, Hlen. repeat split; try reflexivity.
    rewrite Z.add_assoc. reflexivity.
Qed.

End PineconeStoreLoop.

(** ** The pure loops *)

Lemma for_each_append {St A B} (f : A -> B) (body : A -> list B -> py St (list B))
    (xs : list A) (acc : list B) (s : St) :
  (forall x acc s, body x acc s = (Return (acc ++ [f x]), s)) ->
  for_each xs body acc s = (Return (acc ++ (f <$> xs)), s).
Proof.
  intros Hbody. revert acc. induction xs as [|x xs IH]; intros acc; simpl.
  - rewrite app_nil_r. reflexivity.
  - unfold bind. rewrite Hbody, IH, <- app_assoc. reflexivity.
Qed.

(** The loop of [PineconeSink.search] over the matches: it makes no
    library call, and ends in the results or in the KeyError of the first
    match that lacks an entry. *)
Lemma append_matches_outcome {W} {lib : PineconeLib W} results acc
    (s : state PineconeSink.t W) :
  for_each results PineconeSink.append_match acc s
  = (outcome_map (app acc) (of_matches results), s).
Proof.
  revert acc. induction results as [|m ms IH]; intros acc; simpl.
  - rewrite app_nil_r. reflexivity.
  - unfold bind at 1. unfold PineconeSink.append_match, entry, of_match.
    destruct (sv_id m), (sv_metadata m), (sv_score m); try reflexivity.
    unfold bind, ret. rewrite IH.
    destruct (of_matches ms); simpl; [rewrite <- app_assoc|]; reflexivity.
Qed.

(** The loop of [SupabaseSink.store] over [range(0, len(vectors))]. *)
Lemma collect_records {W} {lib : VecsLib W} (vs : list NeumVector.t) fuel start acc
    (s : state SupabaseSink.t W) :
  (length vs - start <= fuel)%nat ->
  for_each (range_from fuel start (length vs) 1) (SupabaseSink.append_record vs) acc s
  = (Return (acc ++ (as_tuple <$> drop start vs)), s).
Proof.
  revert start acc. induction fuel as [|fuel IH]; intros start acc Hfuel; simpl.
  - rewrite drop_ge by lia. rewrite app_nil_r. reflexivity.
  - destruct (start <? length vs)%nat eqn:E; simpl.
    + apply Nat.ltb_lt in E.
      destruct (lookup_lt_is_Some_2 vs start E) as [v Hv].
      unfold bind at 1. unfold SupabaseSink.append_record, item, bind. rewrite Hv. simpl.
      rewrite IH by lia. rewrite (drop_S _ _ _ Hv), <- app_assoc.
      replace (start + 1)%nat with (S start) by lia. reflexivity.
    + apply Nat.ltb_ge in E. rewrite drop_ge by lia. rewrite app_nil_r. reflexivity.
Qed.

(** C2. [store] reports what the service acknowledged.  PineconeSink, with
    the connection set up and every batch answered with an
    ['upserted_count']: the batches sent partition the input in order, each
    holds between 1 and 32 vectors and only the last may hold fewer than 32
    (for 40 vectors: 32 and 8); the result is the sum of the counts
    answered, which is the number of vectors when each batch is
    acknowledged in full.  SupabaseSink, with a non-empty input and every
    library call returning: one [upsert] with all records in order, and the
    result is the number of vectors. *)
Theorem store_returns_acknowledged_count :
  (forall W (lib : PineconeLib W) (s : state PineconeSink.t W)
          pipeline_id vectors task_id w1 h w2,
      pinecone_init (PineconeSink.api_key (self s))
        (PineconeSink.environment (self s)) (world s) = (Return tt, w1) ->
      pinecone_Index (PineconeSink.index (self s)) w1 = (Return h, w2) ->
      (forall v ns w, exists r c w',
          Index_upsert h v ns w = (Return r, w') /\ r !! "upserted_count" = Some c) ->
      let r := (PineconeSink.store pipeline_id vectors task_id s).1 in
      let evs := added s (PineconeSink.store pipeline_id vectors task_id s).2 in
      let batches := upsert_batches evs in
      concat batches = as_tuple <$> vectors /\
      Forall (fun b => (0 < length b <= 32)%nat) batches /\
      (forall k b, batches !! k = Some b -> (S k < length batches)%nat ->
                   length b = 32%nat) /\
      (length vectors = 40%nat -> length <$> batches = [32%nat; 8%nat]) /\
      length (acknowledged evs) = length batches /\
      r = Return (sum (acknowledged evs)) /\
      (acknowledged evs = (Z.of_nat ∘ length) <$> batches ->
       r = Return (Z.of_nat (length vectors)))) /\
  (forall W (lib : VecsLib W) (s : state SupabaseSink.t W)
          pipeline_id vectors task_id first vx w1 db w2 w3 w4,
      vectors !! 0%nat = Some first ->
      create_client (SupabaseSink.database_connection (self s)) (world s)
        = (Return vx, w1) ->
      get_or_create_collection vx
        (resolve (SupabaseSink.collection_name (self s)) pipeline_id)
        (Z.of_nat (length (NeumVector.vector first))) w1 = (Return db, w2) ->
      Collection_upsert db (as_tuple <$> vectors) w2 = (Return tt, w3) ->
      disconnect vx w3 = (Return tt, w4) ->
      let r := (SupabaseSink.store pipeline_id vectors task_id s).1 in
      let evs := added s (SupabaseSink.store pipeline_id vectors task_id s).2 in
      collection_upserts evs = [as_tuple <$> vectors] /\
      r = Return (Z.of_nat (length vectors))).
Proof.
  split.
  - intros W lib s pid vs task w1 h w2 Hinit Hindex Hack.
    unfold PineconeSink.store, PineconeSink.init, PineconeSink.Index.
    unfold_py. rewrite Hinit. simpl. rewrite Hindex. simpl.
    match goal with |- context [for_each ?idx _ ?a ?s1] =>
      destruct (store_loop_acknowledged h (resolve (PineconeSink.namespace (self s)) pid)
                  vs idx a s1 (fun v => Hack v _)) as (evs & s' & -> & Hlog & Hb & Hlen) end.
    simpl in Hlog. rewrite <- !app_assoc in Hlog. simpl in Hlog.
    cbv zeta. simpl fst. simpl snd. rewrite (added_of_log _ _ _ Hlog).
    change (upsert_batches (_ :: _ :: evs)) with (upsert_batches evs).
    change (acknowledged (_ :: _ :: evs)) with (acknowledged evs).
    rewrite Hb.
    destruct (batches_partition vs) as (Hcat & Hlens & Hfull).
    repeat split; try assumption.
    + intros H40. unfold range, batch_at. rewrite H40. simpl.
      unfold slice, PineconeSink.batch_size. simpl.
      rewrite !length_fmap, !length_take, !length_drop, H40. reflexivity.
    + rewrite Hlen, length_fmap. reflexivity.
    + intros Hall. rewrite Hall, sum_lengths, Hcat, length_fmap. reflexivity.
  - intros W lib s pid vs task first vx w1 db w2 w3 w4 Hfirst Hc Hg Hu Hd.
    unfold SupabaseSink.store, SupabaseSink.client, SupabaseSink.get_or_create,
      SupabaseSink.upsert, SupabaseSink.close.
    unfold_py. rewrite Hc. simpl. unfold item. rewrite Hfirst. unfold_py.
    rewrite Hg. simpl. unfold range.
    rewrite collect_records by lia. simpl. rewrite drop_0, Hu. simpl.
    rewrite Hd. simpl. tidy_log. auto.
Qed.

Lemma mem_index_acknowledges (h : @IndexHandle _ MemIndex.lib) v ns w :
  exists r c w',
    @Index_upsert _ MemIndex.lib h v ns w = (Return r, w') /\
    r !! "upserted_count" = Some c.
Proof. eexists _, _, _. split; [reflexivity|]. apply lookup_singleton_eq. Qed.

Lemma store_returns_acknowledged_count_witness :
  (PineconeSink.store "p" (samples 40 8) "" pinecone_fresh).1 = Return 40 /\
  length <$> upsert_batches
               (added pinecone_fresh
                  (PineconeSink.store "p" (samples 40 8) "" pinecone_fresh).2)
    = [32%nat; 8%nat] /\
  (SupabaseSink.store "p" (samples 3 8) "" supabase_fresh).1 = Return 3.
Proof.
  destruct store_returns_acknowledged_count as [Hpinecone Hsupabase].
  destruct (Hpinecone _ MemIndex.lib pinecone_fresh "p" (samples 40 8) ""
              _ _ _ eq_refl eq_refl (mem_index_acknowledges _))
    as (_ & _ & _ & H40 & _ & _ & Hall).
  destruct (Hsupabase _ MemVecs.lib supabase_fresh "p" (samples 3 8) ""
              (sample "0" 8) tt _ "pipeline_p" _ _ _
              eq_refl eq_refl eq_refl eq_refl eq_refl)
    as (_ & Hthree).
  split; [|split].
  - apply Hall. vm_compute. reflexivity.
  - apply H40. reflexivity.
  - exact Hthree.
Defined.

(** C9. [PineconeSink.store] of an empty sequence sends no batch, whatever
    the service does; with the connection set up ([init] and [Index]
    return) it makes those two calls only and returns 0. *)
Theorem pinecone_store_empty_returns_zero :
  forall W (lib : PineconeLib W) (s : state PineconeSink.t W) pipeline_id task_id,
    upsert_batches (added s (PineconeSink.store pipeline_id [] task_id s).2) = [] /\
    (forall w1 h w2,
        pinecone_init (PineconeSink.api_key (self s))
          (PineconeSink.environment (self s)) (world s) = (Return tt, w1) ->
        pinecone_Index (PineconeSink.index (self s)) w1 = (Return h, w2) ->
        (PineconeSink.store pipeline_id [] task_id s).1 = Return 0 /\
        ev_call <$> added s (PineconeSink.store pipeline_id [] task_id s).2 =
          [Call_pinecone_init (PineconeSink.api_key (self s))
             (PineconeSink.environment (self s));
           Call_pinecone_Index (PineconeSink.index (self s))]).
Proof.
  intros W lib s pid task.
  unfold PineconeSink.store, PineconeSink.init, PineconeSink.Index.
  unfold_py. split.
  - lib_call; [lib_call|]; tidy_log; reflexivity.
  - intros w1 h w2 Hinit Hindex. rewrite Hinit. simpl. rewrite Hindex. simpl.
    tidy_log. auto.
Qed.

Lemma pinecone_store_empty_returns_zero_witness :
  (PineconeSink.store "p" [] "" pinecone_fresh).1 = Return 0 /\
  upsert_batches (added pinecone_fresh (PineconeSink.store "p" [] "" pinecone_fresh).2)
    = [].
Proof.
  destruct (pinecone_store_empty_returns_zero _ MemIndex.lib pinecone_fresh "p" "")
    as [Hnone Hzero].
  destruct (Hzero _ _ _ eq_refl eq_refl) as [Hr _].
  split; [exact Hr | exact Hnone].
Defined.

Ltac in_transcript := eexists; rewrite !elem_of_cons; eauto.

Ltac only_name :=
  repeat first
    [ apply targets_only_cons; [simpl; congruence|]
    | apply Forall_nil_2 ].

(** C1. The name an operation works on is the configured namespace or
    collection name when there is one, whatever the pipeline id, and
    [pipeline_] followed by the pipeline id when there is none.  Every call
    of [store], [search] and [info] of either connector that names a
    namespace or collection names that one; [PineconeSink.info] reads the
    count under that key of the statistics.  The naming call is made as
    soon as the calls before it return. *)
Theorem operations_target_resolved_name :
  (forall pipeline_id, resolve None pipeline_id = "pipeline_" +:+ pipeline_id) /\
  (forall name pipeline_id, resolve (Some name) pipeline_id = name) /\
  (forall W (lib : PineconeLib W) (s : state PineconeSink.t W)
          pipeline_id vectors task_id vector k,
      let name := resolve (PineconeSink.namespace (self s)) pipeline_id in
      targets_only name (added s (PineconeSink.store pipeline_id vectors task_id s).2) /\
      targets_only name (added s (PineconeSink.search vector k pipeline_id s).2) /\
      (forall w1 h w2,
          pinecone_init (PineconeSink.api_key (self s))
            (PineconeSink.environment (self s)) (world s) = (Return tt, w1) ->
          pinecone_Index (PineconeSink.index (self s)) w1 = (Return h, w2) ->
          exists r,
            Ev (Call_Index_query vector k name false true) r
              ∈ added s (PineconeSink.search vector k pipeline_id s).2) /\
      (forall i,
          (PineconeSink.info pipeline_id s).1 = Return (Some i) ->
          exists st nss summary,
            last (added s (PineconeSink.info pipeline_id s).2)
              = Some (Ev Call_describe_index_stats (Return (ReplyStats st))) /\
            st !! "namespace" = Some nss /\
            nss !! name = Some summary /\
            summary !! "vector_count" = Some (NeumSinkInfo.number_vectors_stored i))) /\
  (forall W (lib : VecsLib W) (s : state SupabaseSink.t W)
          pipeline_id vectors task_id vector k,
      let name := resolve (SupabaseSink.collection_name (self s)) pipeline_id in
      targets_only name (added s (SupabaseSink.store pipeline_id vectors task_id s).2) /\
      targets_only name (added s (SupabaseSink.search vector k pipeline_id s).2) /\
      targets_only name (added s (SupabaseSink.info pipeline_id s).2) /\
      (forall vx w1,
          create_client (SupabaseSink.database_connection (self s)) (world s)
            = (Return vx, w1) ->
          (forall first, vectors !! 0%nat = Some first ->
             exists r,
               Ev (Call_get_or_create_collection name
                     (Z.of_nat (length (NeumVector.vector first)))) r
                 ∈ added s (SupabaseSink.store pipeline_id vectors task_id s).2) /\
          (exists r,
              Ev (Call_get_collection name) r
                ∈ added s (SupabaseSink.search vector k pipeline_id s).2) /\
          (exists r,
              Ev (Call_get_collection name) r
                ∈ added s (SupabaseSink.info pipeline_id s).2))).
Proof.
  split; [reflexivity|]. split; [reflexivity|]. split.
  - intros W lib s pid vs task v k name. subst name. repeat split.
    + unfold PineconeSink.store, PineconeSink.init, PineconeSink.Index. unfold_py.
      lib_call; [lib_call|]; tidy_log; try solve [only_name].
      match goal with |- context [for_each ?idx (PineconeSink.store_batch ?h ?ns vs) ?a ?s1] =>
        destruct (store_loop_sends h ns vs idx a s1) as (evs & Hlog & Ht & _);
        destruct (for_each idx (PineconeSink.store_batch h ns vs) a s1) as [[n|e] s2]
      end; simpl in *; rewrite <- !app_assoc in Hlog;
        rewrite (added_of_log _ _ _ Hlog); simpl; only_name; exact Ht.
    + unfold PineconeSink.search, PineconeSink.init, PineconeSink.Index,
        PineconeSink.query, subscript. unfold_py.
      lib_call; [lib_call; [lib_call|]|]; tidy_log; try solve [only_name].
      destruct (_ !! "matches") as [results|]; simpl; tidy_log; [|only_name].
      rewrite append_matches_outcome.
      simpl. tidy_log. only_name.
    + intros w1 h w2 Hinit Hindex.
      unfold PineconeSink.search, PineconeSink.init, PineconeSink.Index,
        PineconeSink.query, subscript. unfold_py.
      rewrite Hinit. simpl. rewrite Hindex. simpl.
      lib_call; tidy_log; [|in_transcript].
      destruct (_ !! "matches") as [results|]; simpl; tidy_log; [|in_transcript].
      rewrite append_matches_outcome.
      simpl. tidy_log. in_transcript.
    + intros i. unfold PineconeSink.info, PineconeSink.init, PineconeSink.Index,
        PineconeSink.stats, subscript. unfold_py.
      lib_call; [lib_call; [lib_call|]|]; try discriminate.
      destruct (_ !! "namespace") as [nss|] eqn:Hnss; simpl; [|discriminate].
      case_bool_decide as Hin; simpl; [|discriminate].
      destruct (nss !! _) as [summary|] eqn:Hsummary; simpl; [|discriminate].
      destruct (summary !! "vector_count") as [n|] eqn:Hn; simpl; [|discriminate].
      intros [= <-]. tidy_log. eauto 10.
  - intros W lib s pid vs task v k name. subst name. repeat split.
    + unfold SupabaseSink.store, SupabaseSink.client, SupabaseSink.get_or_create,
        SupabaseSink.upsert, SupabaseSink.close. unfold_py.
      lib_call; [|tidy_log; only_name].
      unfold item. destruct (vs !! 0%nat) as [first|]; unfold_py.
      * lib_call.
        -- unfold range. rewrite collect_records by lia. simpl.
           lib_call; lib_call; tidy_log; only_name.
        -- lib_call; tidy_log; only_name.
      * lib_call; tidy_log; only_name.
    + unfold SupabaseSink.search, SupabaseSink.client, SupabaseSink.get,
        SupabaseSink.query, SupabaseSink.close. unfold_py.
      lib_call; [|tidy_log; only_name].
      lib_call; lib_call; tidy_log; try solve [only_name].
      lib_call; lib_call; tidy_log; try solve [only_name].
      rewrite (for_each_append (fun x : vecs_row =>
                                  NeumSearchResult.Build (x.1.1) (x.2) (x.1.2)))
        by reflexivity.
      simpl. tidy_log. only_name.
    + unfold SupabaseSink.info, SupabaseSink.client, SupabaseSink.get,
        SupabaseSink.count, SupabaseSink.close. unfold_py.
      lib_call; [|tidy_log; only_name].
      lib_call; lib_call; tidy_log; try solve [only_name].
      lib_call; tidy_log; only_name.
    + intros first Hfirst.
      unfold SupabaseSink.store, SupabaseSink.client, SupabaseSink.get_or_create,
        SupabaseSink.upsert, SupabaseSink.close. unfold_py.
      rewrite H. simpl. unfold item. rewrite Hfirst. unfold_py.
      lib_call.
      * unfold range. rewrite collect_records by lia. simpl.
        lib_call; lib_call; tidy_log; in_transcript.
      * lib_call; tidy_log; in_transcript.
    + unfold SupabaseSink.search, SupabaseSink.client, SupabaseSink.get,
        SupabaseSink.query, SupabaseSink.close. unfold_py.
      rewrite H. simpl.
      lib_call; lib_call; tidy_log; try solve [in_transcript].
      lib_call; lib_call; tidy_log; try solve [in_transcript].
      rewrite (for_each_append (fun x : vecs_row =>
                                  NeumSearchResult.Build (x.1.1) (x.2) (x.1.2)))
        by reflexivity.
      simpl. tidy_log. in_transcript.
    + unfold SupabaseSink.info, SupabaseSink.client, SupabaseSink.get,
        SupabaseSink.count, SupabaseSink.close. unfold_py.
      rewrite H. simpl.
      lib_call; lib_call; tidy_log; try solve [in_transcript].
      lib_call; tidy_log; in_transcript.
Qed.

Lemma operations_target_resolved_name_witness :
  (exists r,
      Ev (Call_Index_query [] 3 "pipeline_42" false true) r
        ∈ added pinecone_fresh (PineconeSink.search [] 3 "42" pinecone_fresh).2) /\
  (exists r,
      Ev (Call_Index_query [] 3 "custom" false true) r
        ∈ added pinecone_custom (PineconeSink.search [] 3 "42" pinecone_custom).2) /\
  (exists st nss summary,
      last (added pinecone_scripted_answers
              (PineconeSink.info "42" pinecone_scripted_answers).2)
        = Some (Ev Call_describe_index_stats (Return (ReplyStats st))) /\
      st !! "namespace" = Some nss /\
      nss !! "pipeline_42" = Some summary /\
      summary !! "vector_count" = Some 3) /\
  (exists r,
      Ev (Call_get_or_create_collection "pipeline_42" 8) r
        ∈ added supabase_fresh
            (SupabaseSink.store "42" (samples 3 8) "" supabase_fresh).2) /\
  (exists r,
      Ev (Call_get_collection "pipeline_42") r
        ∈ added supabase_fresh (SupabaseSink.search [] 3 "42" supabase_fresh).2) /\
  (exists r,
      Ev (Call_get_collection "custom") r
        ∈ added supabase_custom (SupabaseSink.info "42" supabase_custom).2).
Proof.
  destruct operations_target_resolved_name as (_ & _ & Hpinecone & Hsupabase).
  destruct (Hpinecone _ MemIndex.lib pinecone_fresh "42" [] "" [] 3)
    as (_ & _ & Hdefault & _).
  destruct (Hpinecone _ MemIndex.lib pinecone_custom "42" [] "" [] 3)
    as (_ & _ & Hcustom & _).
  destruct (Hpinecone _ CannedIndex.lib pinecone_scripted_answers "42" [] "" [] 3)
    as (_ & _ & _ & Hinfo).
  destruct (Hsupabase _ MemVecs.lib supabase_fresh "42" (samples 3 8) "" [] 3)
    as (_ & _ & _ & Hfresh).
  destruct (Hfresh tt _ eq_refl) as (Hstore & Hsearch & _).
  destruct (Hsupabase _ MemVecs.lib supabase_custom "42" [] "" [] 3)
    as (_ & _ & _ & Hnamed).
  destruct (Hnamed tt _ eq_refl) as (_ & _ & Hcount).
  repeat split.
  - exact (Hdefault _ _ _ eq_refl eq_refl).
  - exact (Hcustom _ _ _ eq_refl eq_refl).
  - exact (Hinfo (NeumSinkInfo.Build 3) eq_refl).
  - exact (Hstore (sample "0" 8) eq_refl).
  - exact Hsearch.
  - exact Hcount.
Defined.

(** C7 as the specification words it does not hold: on a reachable
    database, [SupabaseSink.store] of an empty sequence ends in the domain
    exception SupabaseInsertionException, not in an IndexError. *)
Lemma supabase_store_empty_no_index_error :
  (SupabaseSink.store "p" [] "" supabase_fresh).1
    = Raise (Exn SupabaseInsertionException
               "Supabase storing failed. Exception list index out of range") /\
  ~ (exists e, (SupabaseSink.store "p" [] "" supabase_fresh).1 = Raise e /\
               class_of e = IndexError).
Proof.
  split; [reflexivity|].
  intros (e & He & Hclass). vm_compute in He. injection He as <-. discriminate.
Qed.

(** C7, amended.  With the client created and [disconnect] returning,
    [SupabaseSink.store] of an empty sequence raises
    SupabaseInsertionException with the index error's message embedded; the
    IndexError itself does not reach the caller, and apart from
    [create_client] and [disconnect] no library call is made. *)
Theorem supabase_store_empty_raises_insertion_exception :
  forall W (lib : VecsLib W) (s : state SupabaseSink.t W) pipeline_id task_id vx w1 w2,
    create_client (SupabaseSink.database_connection (self s)) (world s)
      = (Return vx, w1) ->
    disconnect vx w1 = (Return tt, w2) ->
    let r := (SupabaseSink.store pipeline_id [] task_id s).1 in
    let evs := added s (SupabaseSink.store pipeline_id [] task_id s).2 in
    r = Raise (Exn SupabaseInsertionException
                 "Supabase storing failed. Exception list index out of range") /\
    ev_call <$> evs =
      [Call_create_client (SupabaseSink.database_connection (self s)); Call_disconnect].
Proof.
  intros W lib s pid task vx w1 w2 Hclient Hclose.
  unfold SupabaseSink.store, SupabaseSink.client, SupabaseSink.get_or_create,
    SupabaseSink.upsert, SupabaseSink.close. unfold_py.
  rewrite Hclient. simpl. rewrite Hclose. simpl. tidy_log. auto.
Qed.

Lemma supabase_store_empty_raises_insertion_exception_witness :
  (SupabaseSink.store "p" [] "" supabase_fresh).1
    = Raise (Exn SupabaseInsertionException
               "Supabase storing failed. Exception list index out of range") /\
  ev_call <$> added supabase_fresh (SupabaseSink.store "p" [] "" supabase_fresh).2
    = [Call_create_client "postgresql://db"; Call_disconnect].
Proof.
  exact (supabase_store_empty_raises_insertion_exception
           _ MemVecs.lib supabase_fresh "p" "" tt _ _ eq_refl eq_refl).
Defined.

(** ** Which exceptions leave an operation *)

Section Wrapping.
Context {St : Type}.

Lemma raises_only_ret {A} c (a : A) : raises_only (St:=St) c (ret a).
Proof. intros s e. discriminate. Qed.

Lemma raises_only_bind {A B} c (m : py St A) (k : A -> py St B) :
  raises_only c m -> (forall a, raises_only c (k a)) -> raises_only c (bind m k).
Proof.
  intros Hm Hk s e. unfold bind. specialize (Hm s).
  destruct (m s) as [[a|e'] s1]; simpl in *; [apply Hk|].
  intros [= <-]. apply Hm. reflexivity.
Qed.

(** A handler that re-raises as class [c] lets nothing else out of the
    [try]. *)
Lemma raises_only_try_except {A} c (body : py St A) (message : exn -> string) :
  raises_only c (try_except body (fun e => raise (Exn c (message e)))).
Proof.
  intros s e. unfold try_except, raise.
  destruct (body s) as [[a|e'] s1]; simpl; [discriminate|].
  intros [= <-]. reflexivity.
Qed.

Lemma raises_only_for_each {A Acc} c (xs : list A) (body : A -> Acc -> py St Acc) :
  (forall x acc, raises_only c (body x acc)) ->
  forall acc, raises_only c (for_each xs body acc).
Proof.
  intros Hb. induction xs as [|x xs IH]; intros acc; simpl.
  - apply raises_only_ret.
  - apply raises_only_bind; [apply Hb | apply IH].
Qed.

End Wrapping.

Lemma raises_only_attr {O W A} c (f : O -> A) : raises_only c (attr (W:=W) f).
Proof. intros s e. discriminate. Qed.

Ltac wrapped :=
  repeat first
    [ progress (intros; cbv zeta beta)
    | apply raises_only_try_except
    | apply raises_only_bind
    | apply raises_only_for_each
    | apply raises_only_ret
    | apply raises_only_attr ].

(** [validation], [store] and [info] of PineconeSink, and [validation]
    of SupabaseSink, raise their own domain exception and nothing else:
    all they do sits inside the [try]. *)
Lemma pinecone_operations_wrap_every_error {W} {lib : PineconeLib W}
    pipeline_id vectors task_id :
  raises_only PineconeConnectionException PineconeSink.validation /\
  raises_only PineconeInsertionException
    (PineconeSink.store pipeline_id vectors task_id) /\
  raises_only PineconeIndexInfoException (PineconeSink.info pipeline_id).
Proof.
  repeat split.
  - unfold PineconeSink.validation. wrapped.
  - unfold PineconeSink.store. wrapped.
  - unfold PineconeSink.info. wrapped.
Qed.

Lemma supabase_validation_wraps_every_error {W} {lib : VecsLib W} :
  raises_only SupabaseConnectionException SupabaseSink.validation.
Proof. unfold SupabaseSink.validation. wrapped. Qed.

(** [store], [search] and [info] of SupabaseSink create the client before
    their first [try]: what [create_client] raises reaches the caller as
    it is. *)
Lemma supabase_client_error_escapes {W} {lib : VecsLib W}
    (s : state SupabaseSink.t W) pipeline_id vectors task_id vector k e w1 :
  create_client (SupabaseSink.database_connection (self s)) (world s) = (Raise e, w1) ->
  (SupabaseSink.store pipeline_id vectors task_id s).1 = Raise e /\
  (SupabaseSink.search vector k pipeline_id s).1 = Raise e /\
  (SupabaseSink.info pipeline_id s).1 = Raise e.
Proof.
  intros Hclient.
  unfold SupabaseSink.store, SupabaseSink.search, SupabaseSink.info,
    SupabaseSink.client.
  unfold_py. rewrite Hclient. simpl. auto.
Qed.

(** The count of [SupabaseSink.info] is read after the [try]: what the
    read raises reaches the caller as it is. *)
Lemma supabase_count_error_escapes {W} {lib : VecsLib W}
    (s : state SupabaseSink.t W) pipeline_id vx w1 db w2 w3 e w4 :
  create_client (SupabaseSink.database_connection (self s)) (world s) = (Return vx, w1) ->
  get_collection vx (resolve (SupabaseSink.collection_name (self s)) pipeline_id) w1
    = (Return db, w2) ->
  disconnect vx w2 = (Return tt, w3) ->
  table_count db w3 = (Raise e, w4) ->
  (SupabaseSink.info pipeline_id s).1 = Raise e.
Proof.
  intros Hclient Hget Hclose Hcount.
  unfold SupabaseSink.info, SupabaseSink.client, SupabaseSink.get,
    SupabaseSink.close, SupabaseSink.count.
  unfold_py. rewrite Hclient. simpl. rewrite Hget. simpl. rewrite Hclose. simpl.
  rewrite Hcount. reflexivity.
Qed.

(** When its name is not among the namespaces of the statistics,
    [PineconeSink.info] falls off the end of the method. *)
Lemma pinecone_info_unlisted_namespace {W} {lib : PineconeLib W}
    (s : state PineconeSink.t W) pipeline_id w1 h w2 st w3 nss :
  pinecone_init (PineconeSink.api_key (self s))
    (PineconeSink.environment (self s)) (world s) = (Return tt, w1) ->
  pinecone_Index (PineconeSink.index (self s)) w1 = (Return h, w2) ->
  describe_index_stats h w2 = (Return st, w3) ->
  st !! "namespace" = Some nss ->
  nss !! resolve (PineconeSink.namespace (self s)) pipeline_id = None ->
  (PineconeSink.info pipeline_id s).1 = Return None.
Proof.
  intros Hinit Hindex Hstats Hnss Hname.
  unfold PineconeSink.info, PineconeSink.init, PineconeSink.Index,
    PineconeSink.stats, subscript. unfold_py.
  rewrite Hinit. simpl. rewrite Hindex. simpl. rewrite Hstats. simpl.
  rewrite Hnss. simpl. rewrite Hname.
  rewrite bool_decide_eq_false_2 by (intros [? ?]; discriminate). reflexivity.
Qed.

(** [validation] of SupabaseSink never disconnects. *)
Lemma supabase_validation_never_disconnects {W} {lib : VecsLib W}
    (s : state SupabaseSink.t W) :
  ev_call <$> added s (SupabaseSink.validation s).2
    = [Call_create_client (SupabaseSink.database_connection (self s))] /\
  (first_raise (added s (SupabaseSink.validation s).2) = None ->
   connected (added s (SupabaseSink.validation s).2) = true).
Proof.
  unfold SupabaseSink.validation, SupabaseSink.client. unfold_py.
  lib_call; tidy_log; split; try reflexivity; discriminate.
Qed.

(** C3 at failing inputs.  On an index that holds three vectors for the
    pipeline and lists them, as the service does, under ["namespaces"],
    [PineconeSink.info] does not report 3: it subscripts the statistics
    with ["namespace"], and the KeyError comes back as
    PineconeIndexInfoException.  On a database that cannot be reached, and
    on one where the count cannot be read, [SupabaseSink.info] lets the
    library's own error through. *)
Lemma info_does_not_report_stored_count :
  match MemIndex.stats (world pinecone_three) !! "namespaces" with
  | Some namespaces =>
      match namespaces !! "pipeline_42" with
      | Some summary => summary !! "vector_count"
      | None => None
      end
  | None => None
  end = Some 3 /\
  (PineconeSink.info "42" pinecone_three).1
    = Raise (Exn PineconeIndexInfoException
               "Failed to get info for pinecone. Exception - 'namespace'") /\
  (SupabaseSink.info "p" supabase_unreachable).1
    = Raise (Exn (ClientError "OperationalError") "could not connect to server") /\
  (SupabaseSink.info (lib:=CannedVecs.lib failing_count) "p" supabase_scripted).1
    = Raise (service_error "count could not be read").
Proof. repeat split; vm_compute; reflexivity. Qed.

(** C4 at a failing input: on a database that cannot be reached, [store],
    [search] and [info] of SupabaseSink let the client library's own error
    through. *)
Lemma supabase_operations_leak_client_error :
  is_raw (Exn (ClientError "OperationalError") "could not connect to server") = true /\
  (SupabaseSink.store "p" (samples 3 8) "" supabase_unreachable).1
    = Raise (Exn (ClientError "OperationalError") "could not connect to server") /\
  (SupabaseSink.search [] 3 "p" supabase_unreachable).1
    = Raise (Exn (ClientError "OperationalError") "could not connect to server") /\
  (SupabaseSink.info "p" supabase_unreachable).1
    = Raise (Exn (ClientError "OperationalError") "could not connect to server").
Proof.
  split; [reflexivity|].
  eapply (supabase_client_error_escapes supabase_unreachable). reflexivity.
Qed.

(** C8 at a failing input: after [validation] on a reachable database the
    client it created is still connected; no [disconnect] was called. *)
Lemma supabase_validation_leaves_client_connected :
  (SupabaseSink.validation supabase_fresh).1 = Return true /\
  ev_call <$> added supabase_fresh (SupabaseSink.validation supabase_fresh).2
    = [Call_create_client "postgresql://db"] /\
  connected (added supabase_fresh (SupabaseSink.validation supabase_fresh).2) = true /\
  MemVecs.connections (world (SupabaseSink.validation supabase_fresh).2) = 1%nat.
Proof. repeat split. Qed.

(** ** Disconnecting *)

Section SupabaseDisconnect.
Context {W : Type} {lib : VecsLib W}.
Hypothesis disconnect_returns :
  forall vx w, exists w', disconnect vx w = (Return tt, w').

Ltac close_call :=
  match goal with
  | |- context [disconnect ?a ?b] =>
      let w := fresh "w" in
      let H := fresh "Hclose" in
      destruct (disconnect_returns a b) as [w H]; rewrite H; simpl
  end.

(** [store], [search] and [info] of SupabaseSink leave no client
    connected, however their other library calls end. *)
Lemma supabase_operations_disconnect (s : state SupabaseSink.t W)
    pipeline_id vectors task_id vector k :
  connected (added s (SupabaseSink.store pipeline_id vectors task_id s).2) = false /\
  connected (added s (SupabaseSink.search vector k pipeline_id s).2) = false /\
  connected (added s (SupabaseSink.info pipeline_id s).2) = false.
Proof.
  repeat split.
  - unfold SupabaseSink.store, SupabaseSink.client, SupabaseSink.get_or_create,
      SupabaseSink.upsert, SupabaseSink.close. unfold_py.
    lib_call; [|tidy_log; reflexivity].
    unfold item. destruct (vectors !! 0%nat) as [first|]; unfold_py.
    + lib_call.
      * unfold range. rewrite collect_records by lia. simpl.
        lib_call; close_call; tidy_log; reflexivity.
      * close_call. tidy_log. reflexivity.
    + close_call. tidy_log. reflexivity.
  - unfold SupabaseSink.search, SupabaseSink.client, SupabaseSink.get,
      SupabaseSink.query, SupabaseSink.close. unfold_py.
    lib_call; [|tidy_log; reflexivity].
    lib_call; close_call; [|tidy_log; reflexivity].
    lib_call; close_call; [|tidy_log; reflexivity].
    rewrite (for_each_append (fun x : vecs_row =>
                                NeumSearchResult.Build (x.1.1) (x.2) (x.1.2)))
      by reflexivity.
    simpl. tidy_log. reflexivity.
  - unfold SupabaseSink.info, SupabaseSink.client, SupabaseSink.get,
      SupabaseSink.count, SupabaseSink.close. unfold_py.
    lib_call; [|tidy_log; reflexivity].
    lib_call; close_call; [|tidy_log; reflexivity].
    lib_call; tidy_log; reflexivity.
Qed.

End SupabaseDisconnect.

(** ** The count [info] reports *)

(** With every library call returning, [SupabaseSink.info] reports the
    count the table answers. *)
Lemma supabase_info_reports_table_count {W} {lib : VecsLib W}
    (s : state SupabaseSink.t W) pipeline_id vx w1 db w2 w3 n w4 :
  create_client (SupabaseSink.database_connection (self s)) (world s) = (Return vx, w1) ->
  get_collection vx (resolve (SupabaseSink.collection_name (self s)) pipeline_id) w1
    = (Return db, w2) ->
  disconnect vx w2 = (Return tt, w3) ->
  table_count db w3 = (Return n, w4) ->
  (SupabaseSink.info pipeline_id s).1 = Return (NeumSinkInfo.Build n).
Proof.
  intros Hclient Hget Hclose Hcount.
  unfold SupabaseSink.info, SupabaseSink.client, SupabaseSink.get,
    SupabaseSink.close, SupabaseSink.count.
  unfold_py. rewrite Hclient. simpl. rewrite Hget. simpl. rewrite Hclose. simpl.
  rewrite Hcount. reflexivity.
Qed.

(** C5 as the specification words it does not hold: [PineconeSink.search]
    has no check that the namespace exists.  On an index that holds no
    namespace for the pipeline and answers the query with no matches, it
    returns the empty list and raises nothing. *)
Lemma pinecone_search_unknown_namespace_returns_no_match :
  MemIndex.namespaces (world pinecone_fresh) !! resolve None "p" = None /\
  (PineconeSink.search [] 3 "p" pinecone_fresh).1 = Return [] /\
  ~ (exists e, (PineconeSink.search [] 3 "p" pinecone_fresh).1 = Raise e).
Proof.
  split; [reflexivity|]. split; [reflexivity|].
  intros [e He]. vm_compute in He. discriminate.
Qed.

(** C5, amended.  [PineconeSink.search] raises PineconeQueryException, with
    the library's message embedded, as soon as one of its library calls
    raises; whether the namespace exists it does not check, and a query
    answered with no matches gives the empty list.  [SupabaseSink.search],
    with its client created and [disconnect] returning, raises
    SupabaseQueryException when [get_collection] fails for the resolved
    name (the collection does not exist) and when the query raises. *)
Theorem search_raises_query_exception :
  (forall W (lib : PineconeLib W) (s : state PineconeSink.t W) vector k pipeline_id,
      let r := (PineconeSink.search vector k pipeline_id s).1 in
      let evs := added s (PineconeSink.search vector k pipeline_id s).2 in
      forall e, first_raise evs = Some e ->
                r = Raise (Exn PineconeQueryException
                             ("Failed to query pinecone. Exception - " +:+ str e))) /\
  (forall W (lib : PineconeLib W) (s : state PineconeSink.t W) vector k pipeline_id
          w1 h w2 response w3,
      let name := resolve (PineconeSink.namespace (self s)) pipeline_id in
      pinecone_init (PineconeSink.api_key (self s))
        (PineconeSink.environment (self s)) (world s) = (Return tt, w1) ->
      pinecone_Index (PineconeSink.index (self s)) w1 = (Return h, w2) ->
      Index_query h vector k name false true w2 = (Return response, w3) ->
      response !! "matches" = Some [] ->
      (PineconeSink.search vector k pipeline_id s).1 = Return []) /\
  (forall W (lib : VecsLib W) (s : state SupabaseSink.t W) vector k pipeline_id vx w1,
      let name := resolve (SupabaseSink.collection_name (self s)) pipeline_id in
      create_client (SupabaseSink.database_connection (self s)) (world s)
        = (Return vx, w1) ->
      (forall w, exists w', disconnect vx w = (Return tt, w')) ->
      (forall e w2,
          get_collection vx name w1 = (Raise e, w2) ->
          (SupabaseSink.search vector k pipeline_id s).1
            = Raise (Exn SupabaseQueryException
                       ("Collection " +:+ name +:+ " does not exist"))) /\
      (forall db w2 w3 e w4,
          get_collection vx name w1 = (Return db, w2) ->
          disconnect vx w2 = (Return tt, w3) ->
          Collection_query db vector true true k w3 = (Raise e, w4) ->
          (SupabaseSink.search vector k pipeline_id s).1
            = Raise (Exn SupabaseQueryException
                       ("Error querying vectors from Supabase. Exception: "
                        +:+ str e)))).
Proof.
  split; [|split].
  - intros W lib s v k pid r evs e. subst r evs.
    unfold PineconeSink.search, PineconeSink.init, PineconeSink.Index,
      PineconeSink.query, subscript. unfold_py.
    lib_call; [lib_call; [lib_call|]|]; tidy_log;
      try solve [intros [= <-]; reflexivity].
    destruct (_ !! "matches") as [results|]; simpl; tidy_log; [|discriminate].
    rewrite append_matches_outcome.
    simpl. tidy_log. discriminate.
  - intros W lib s v k pid w1 h w2 response w3 name Hinit Hindex Hquery Hnone.
    subst name.
    unfold PineconeSink.search, PineconeSink.init, PineconeSink.Index,
      PineconeSink.query, subscript. unfold_py.
    rewrite Hinit. simpl. rewrite Hindex. simpl. rewrite Hquery. simpl.
    rewrite Hnone. reflexivity.
  - intros W lib s v k pid vx w1 name Hclient Hclose. subst name. split.
    + intros e w2 Hget.
      unfold SupabaseSink.search, SupabaseSink.client, SupabaseSink.get,
        SupabaseSink.close. unfold_py.
      rewrite Hclient. simpl. rewrite Hget. simpl.
      destruct (Hclose w2) as [w3 ->]. reflexivity.
    + intros db w2 w3 e w4 Hget Hclose2 Hquery.
      unfold SupabaseSink.search, SupabaseSink.client, SupabaseSink.get,
        SupabaseSink.query, SupabaseSink.close. unfold_py.
      rewrite Hclient. simpl. rewrite Hget. simpl. rewrite Hclose2. simpl.
      rewrite Hquery. simpl. destruct (Hclose w4) as [w5 ->]. reflexivity.
Qed.

Lemma search_raises_query_exception_witness :
  (PineconeSink.search [] 3 "42" pinecone_bad_key).1
    = Raise (Exn PineconeQueryException
               "Failed to query pinecone. Exception - Invalid API Key") /\
  (PineconeSink.search [] 3 "42" pinecone_fresh).1 = Return [] /\
  (SupabaseSink.search [] 3 "42" supabase_fresh).1
    = Raise (Exn SupabaseQueryException "Collection pipeline_42 does not exist") /\
  (SupabaseSink.search [] 1001 "42" supabase_three).1
    = Raise (Exn SupabaseQueryException
               "Error querying vectors from Supabase. Exception: limit must be <= 1000").
Proof.
  destruct search_raises_query_exception as (Hraise & Hempty & Hsupabase).
  destruct (Hsupabase _ MemVecs.lib supabase_fresh [] 3 "42" tt _ eq_refl
              (fun w => ex_intro _ _ eq_refl)) as [Hmissing _].
  destruct (Hsupabase _ MemVecs.lib supabase_three [] 1001 "42" tt _ eq_refl
              (fun w => ex_intro _ _ eq_refl)) as [_ Hquery].
  split; [|split; [|split]].
  - exact (Hraise _ MemIndex.lib pinecone_bad_key [] 3 "42" _ eq_refl).
  - exact (Hempty _ MemIndex.lib pinecone_fresh [] 3 "42" _ _ _ _ _
             eq_refl eq_refl eq_refl eq_refl).
  - exact (Hmissing _ _ eq_refl).
  - exact (Hquery "pipeline_42" _ _ _ _ eq_refl eq_refl eq_refl).
Defined.

(** ** Runs on the in-memory services *)

Example info_counts_stored_vectors :
  (PineconeSink.info "42" pinecone_scripted_answers).1
    = Return (Some (NeumSinkInfo.Build 3)) /\
  (SupabaseSink.info "42" supabase_three).1 = Return (NeumSinkInfo.Build 3).
Proof. split; reflexivity. Qed.

Example supabase_info_missing_collection :
  (SupabaseSink.info "42" supabase_fresh).1
    = Raise (Exn SupabaseIndexInfoException "Collection pipeline_42 does not exist").
Proof. reflexivity. Qed.

Example supabase_search_missing_collection :
  (SupabaseSink.search [] 3 "42" supabase_fresh).1
    = Raise (Exn SupabaseQueryException "Collection pipeline_42 does not exist").
Proof. reflexivity. Qed.

Example pinecone_validation_bad_key :
  (PineconeSink.validation pinecone_bad_key).1
    = Raise (Exn PineconeConnectionException
               "Pinecone connection couldn't be initialized. See exception: Invalid API Key")
  /\ (PineconeSink.validation pinecone_fresh).1 = Return true.
Proof. split; reflexivity. Qed.

Example pinecone_store_forty :
  (PineconeSink.store "42" (samples 40 8) "" pinecone_fresh).1 = Return 40 /\
  size <$> MemIndex.namespaces
             (world (PineconeSink.store "42" (samples 40 8) "" pinecone_fresh).2)
           !! "pipeline_42"
    = Some 40%nat.
Proof. split; vm_compute; reflexivity. Qed.

Example supabase_store_disconnects :
  connected (log supabase_three) = false /\
  MemVecs.connections (world supabase_three) = 0%nat.
Proof. split; reflexivity. Qed.

(** * Further properties of the connectors *)

(** ** How [PineconeSink.store] ends *)

Lemma concat_prefix {A} (l1 l2 : list (list A)) :
  l1 `prefix_of` l2 -> concat l1 `prefix_of` concat l2.
Proof. intros [k ->]. rewrite concat_app. apply prefix_app_r. reflexivity. Qed.

Lemma counted_upsert_event v ns r c evs :
  r !! "upserted_count" = Some c ->
  let ev := Ev (Call_Index_upsert v ns) (Return (ReplyUpsert r)) in
  first_raise (ev :: evs) = first_raise evs /\
  unacknowledged (ev :: evs) = unacknowledged evs /\
  acknowledged (ev :: evs) = c :: acknowledged evs /\
  upsert_batches (ev :: evs) = v :: upsert_batches evs.
Proof.
  intros Hc. unfold unacknowledged, acknowledged, upsert_batches. simpl.
  rewrite Hc, bool_decide_eq_false_2 by discriminate. auto.
Qed.

Section PineconeStoreOutcome.
Context {W : Type} {lib : PineconeLib W}.
Variables (h : IndexHandle) (ns : string) (vs : list NeumVector.t).

(** The loop ends in one of three ways: a library call raised (and was
    the last call), an answer carried no count, or every batch was sent
    and counted. *)
Lemma store_loop_outcome idx acc (s : state PineconeSink.t W) r s' :
  for_each idx (PineconeSink.store_batch h ns vs) acc s = (r, s') ->
  exists evs,
    log s' = log s ++ evs /\
    match first_raise evs with
    | Some e => r = Raise e /\ exists ev, last evs = Some ev /\ ev_reply ev = Raise e
    | None =>
        if unacknowledged evs
        then r = Raise (Exn KeyError "'upserted_count'")
        else r = Return (acc + sum (acknowledged evs)) /\
             upsert_batches evs = batch_at vs <$> idx
    end.
Proof.
  revert acc s. induction idx as [|i idx IH]; intros acc s; simpl.
  - intros [= <- <-]. exists []. rewrite app_nil_r, Z.add_0_r. simpl. auto.
  - unfold bind at 1. unfold PineconeSink.store_batch at 1.
    unfold PineconeSink.upsert, subscript. unfold_py.
    destruct (Index_upsert h _ ns (world s)) as [[a|e] w1] eqn:Hup; simpl.
    + destruct (_ !! "upserted_count") as [c|] eqn:Hc; simpl.
      * intros Hrun. destruct (IH _ _ Hrun) as (evs & Hlog & Hend).
        simpl in Hlog.
        exists (Ev (Call_Index_upsert (batch_at vs i) ns) (Return (ReplyUpsert a)) :: evs).
        rewrite Hlog, <- app_assoc.
        split; [reflexivity|].
        destruct (counted_upsert_event (batch_at vs i) ns _ _ evs Hc)
          as (-> & -> & -> & ->).
        destruct (first_raise evs) as [e|].
        -- destruct Hend as (Hr & ev & Hlast & Hev). split; [exact Hr|].
           exists ev. split; [|exact Hev].
           destruct evs; [discriminate|]. rewrite last_cons_cons. exact Hlast.
        -- destruct (unacknowledged evs); [exact Hend|].
           destruct Hend as (Hr & Hb). rewrite Hr, Hb. simpl. rewrite Z.add_assoc. auto.
      * intros [= <- <-]. eexists [_]. split; [reflexivity|].
        simpl. rewrite Hc. simpl. reflexivity.
    + intros [= <- <-]. eexists [_]. split; [reflexivity|]. simpl. eauto.
Qed.

End PineconeStoreOutcome.

(** X1. A library call that raises ends [PineconeSink.store] at once: the
    failing call is the last one made, the caller gets
    PineconeInsertionException with the library's message, and what was
    sent until then is an initial part of the input, in order; nothing is
    taken back. *)
Theorem pinecone_store_aborts_on_library_error :
  forall W (lib : PineconeLib W) (s : state PineconeSink.t W)
         pipeline_id vectors task_id,
    let r := (PineconeSink.store pipeline_id vectors task_id s).1 in
    let evs := added s (PineconeSink.store pipeline_id vectors task_id s).2 in
    concat (upsert_batches evs) `prefix_of` (as_tuple <$> vectors) /\
    match first_raise evs with
    | Some e =>
        r = Raise (Exn PineconeInsertionException
                     ("Failed to store in Pinecone. Exception - " +:+ str e)) /\
        exists ev, last evs = Some ev /\ ev_reply ev = Raise e
    | None =>
        r = Return (sum (acknowledged evs)) \/
        r = Raise (Exn PineconeInsertionException
                     "Failed to store in Pinecone. Exception - 'upserted_count'")
    end.
Proof.
  intros W lib s pid vs task. split.
  - rewrite <- (proj1 (batches_partition vs)). apply concat_prefix.
    unfold PineconeSink.store, PineconeSink.init, PineconeSink.Index. unfold_py.
    lib_call; [lib_call|]; tidy_log; try apply prefix_nil.
    match goal with |- context [for_each ?idx (PineconeSink.store_batch ?h ?ns vs) ?a ?s1] =>
      destruct (store_loop_sends h ns vs idx a s1) as (evs & Hlog & _ & Hpre);
      destruct (for_each idx (PineconeSink.store_batch h ns vs) a s1) as [[n|e] s2]
    end; simpl in *; rewrite <- !app_assoc in Hlog;
      rewrite (added_of_log _ _ _ Hlog); exact Hpre.
  - unfold PineconeSink.store, PineconeSink.init, PineconeSink.Index. unfold_py.
    lib_call; [lib_call|]; tidy_log; eauto.
    match goal with |- context [for_each ?idx (PineconeSink.store_batch ?h ?ns vs) ?a ?s1] =>
      destruct (for_each idx (PineconeSink.store_batch h ns vs) a s1)
        as [[n|e] s2] eqn:Hrun;
      destruct (store_loop_outcome h ns vs idx a s1 _ _ Hrun) as (evs & Hlog & Hend)
    end; simpl in *; rewrite <- !app_assoc in Hlog;
      rewrite (added_of_log _ _ _ Hlog); simpl;
      change (acknowledged (_ :: _ :: evs)) with (acknowledged evs).
    + destruct (first_raise evs) as [e|].
      * destruct Hend as [Hr _]. discriminate.
      * destruct (unacknowledged evs); [discriminate|].
        destruct Hend as [[= ->] _]. left. reflexivity.
    + destruct (first_raise evs) as [e'|].
      * destruct Hend as ([= ->] & ev & Hlast & Hev). split; [reflexivity|].
        exists ev. split; [|exact Hev].
        destruct evs; [discriminate|]. rewrite !last_cons_cons. exact Hlast.
      * destruct (unacknowledged evs).
        -- injection Hend as ->. right. reflexivity.
        -- destruct Hend as [Hr _]. discriminate.
Qed.

(** X2. When no library call of [PineconeSink.store] raised, the run ends
    in one of two ways.  Every answer carried an ['upserted_count']: then
    all vectors were sent, in order, and the result is the sum of the counts
    answered, whatever they are.  Or an answer carried none: then the
    caller gets PineconeInsertionException for the missing key. *)
Theorem pinecone_store_counts_answers :
  forall W (lib : PineconeLib W) (s : state PineconeSink.t W)
         pipeline_id vectors task_id,
    let r := (PineconeSink.store pipeline_id vectors task_id s).1 in
    let evs := added s (PineconeSink.store pipeline_id vectors task_id s).2 in
    first_raise evs = None ->
    if unacknowledged evs
    then r = Raise (Exn PineconeInsertionException
                      "Failed to store in Pinecone. Exception - 'upserted_count'")
    else r = Return (sum (acknowledged evs)) /\
         concat (upsert_batches evs) = as_tuple <$> vectors.
Proof.
  intros W lib s pid vs task.
  unfold PineconeSink.store, PineconeSink.init, PineconeSink.Index. unfold_py.
  lib_call; [lib_call|]; tidy_log; try discriminate.
  match goal with |- context [for_each ?idx (PineconeSink.store_batch ?h ?ns vs) ?a ?s1] =>
    destruct (for_each idx (PineconeSink.store_batch h ns vs) a s1)
      as [[n|e] s2] eqn:Hrun;
    destruct (store_loop_outcome h ns vs idx a s1 _ _ Hrun) as (evs & Hlog & Hend)
  end; simpl in *; rewrite <- !app_assoc in Hlog;
    rewrite (added_of_log _ _ _ Hlog); simpl;
    change (acknowledged (_ :: _ :: evs)) with (acknowledged evs);
    change (upsert_batches (_ :: _ :: evs)) with (upsert_batches evs);
    change (unacknowledged (_ :: _ :: evs)) with (unacknowledged evs);
    intros Hnone; rewrite Hnone in Hend;
    destruct (unacknowledged evs).
  - discriminate.
  - destruct Hend as [[= ->] ->]. split; [reflexivity|].
    apply (batches_partition vs).
  - injection Hend as ->. reflexivity.
  - destruct Hend as [Hr _]. discriminate.
Qed.

Lemma pinecone_store_counts_answers_witness :
  (PineconeSink.store "p" (samples 40 8) "" pinecone_answer_without_count).1
    = Raise (Exn PineconeInsertionException
               "Failed to store in Pinecone. Exception - 'upserted_count'") /\
  (PineconeSink.store "p" (samples 40 8) "" pinecone_partial_count).1 = Return 35.
Proof.
  split.
  - exact (pinecone_store_counts_answers _ CannedIndex.lib
             pinecone_answer_without_count "p" (samples 40 8) "" eq_refl).
  - exact (proj1 (pinecone_store_counts_answers _ CannedIndex.lib
                    pinecone_partial_count "p" (samples 40 8) "" eq_refl)).
Defined.

Example pinecone_store_stops_at_failing_batch :
  (PineconeSink.store "p" (samples 100 8) "" pinecone_failing_second_batch).1
    = Raise (Exn PineconeInsertionException
               "Failed to store in Pinecone. Exception - timed out") /\
  length <$> upsert_batches
               (log (PineconeSink.store "p" (samples 100 8) ""
                       pinecone_failing_second_batch).2)
    = [32%nat; 32%nat].
Proof. split; vm_compute; reflexivity. Qed.

(** ** How many batches *)

Lemma range_from_length_32 fuel start stop :
  (stop - start <= fuel)%nat ->
  length (range_from fuel start stop 32) = ((stop - start + 31) / 32)%nat.
Proof.
  revert start. induction fuel as [|fuel IH]; intros start Hfuel; cbn [range_from].
  - replace (stop - start)%nat with 0%nat by lia. reflexivity.
  - destruct (start <? stop)%nat eqn:E.
    + apply Nat.ltb_lt in E. rewrite length_cons, IH by lia.
      destruct (Nat.le_gt_cases (start + 32) stop) as [Hle|Hgt].
      * replace (stop - start + 31)%nat with (stop - (start + 32) + 31 + 1 * 32)%nat
          by lia.
        rewrite Nat.div_add by lia. lia.
      * replace (stop - (start + 32) + 31)%nat with 31%nat by lia.
        apply (Nat.div_unique _ 32 1 (stop - start - 1)); lia.
    + apply Nat.ltb_ge in E. replace (stop - start)%nat with 0%nat by lia. reflexivity.
Qed.

(** X3. [PineconeSink.store] of N vectors never makes more than
    ceil(N / 32) upsert calls, whatever the service does, and makes exactly
    that many when no call raises and every answer carries a count. *)
Theorem pinecone_store_number_of_batches :
  forall W (lib : PineconeLib W) (s : state PineconeSink.t W)
         pipeline_id vectors task_id,
    let evs := added s (PineconeSink.store pipeline_id vectors task_id s).2 in
    (length (upsert_batches evs) <= (length vectors + 31) / 32)%nat /\
    (first_raise evs = None -> unacknowledged evs = false ->
     length (upsert_batches evs) = ((length vectors + 31) / 32)%nat).
Proof.
  intros W lib s pid vs task.
  assert (Hall : length (batch_at vs <$> range 0 (length vs) PineconeSink.batch_size)
                 = ((length vs + 31) / 32)%nat).
  { rewrite length_fmap. unfold range, PineconeSink.batch_size.
    rewrite range_from_length_32 by lia. rewrite Nat.sub_0_r. reflexivity. }
  unfold PineconeSink.store, PineconeSink.init, PineconeSink.Index. unfold_py.
  lib_call; [lib_call|]; tidy_log; try (split; [lia|discriminate]).
  match goal with |- context [for_each ?idx (PineconeSink.store_batch ?h ?ns vs) ?a ?s1] =>
    destruct (store_loop_sends h ns vs idx a s1) as (evs' & Hlog' & _ & Hpre);
    destruct (for_each idx (PineconeSink.store_batch h ns vs) a s1)
      as [[n|e] s2] eqn:Hrun;
    destruct (store_loop_outcome h ns vs idx a s1 _ _ Hrun) as (evs & Hlog & Hend)
  end; simpl in *; rewrite <- !app_assoc in Hlog, Hlog';
    rewrite Hlog in Hlog'; apply app_inv_head in Hlog';
    injection Hlog' as <-;
    rewrite (added_of_log _ _ _ Hlog); simpl;
    change (upsert_batches (_ :: _ :: evs)) with (upsert_batches evs);
    change (unacknowledged (_ :: _ :: evs)) with (unacknowledged evs);
    (split; [apply prefix_length in Hpre; rewrite <- Hall; exact Hpre|]);
    intros Hnone Hcounted; rewrite Hnone, Hcounted in Hend.
  - destruct Hend as [_ ->]. exact Hall.
  - destruct Hend as [Hr _]. discriminate.
Qed.

Lemma pinecone_store_number_of_batches_witness :
  length (upsert_batches
            (added pinecone_fresh
               (PineconeSink.store "p" (samples 40 8) "" pinecone_fresh).2)) = 2%nat.
Proof.
  exact (proj2 (pinecone_store_number_of_batches _ MemIndex.lib pinecone_fresh
                  "p" (samples 40 8) "") eq_refl eq_refl).
Defined.

(** ** What [search] and [info] of PineconeSink return *)

Lemma of_matches_complete ms :
  Forall complete ms ->
  exists results, of_matches ms = Return results /\ Forall2 carries ms results.
Proof.
  induction 1 as [|m ms (Hid & Hmeta & Hscore) _ (results & Hms & Hcarry)]; simpl.
  - exists []. split; [reflexivity|constructor].
  - unfold of_match.
    destruct Hid as [id Hid], Hmeta as [metadata Hmeta], Hscore as [score Hscore].
    rewrite Hid, Hmeta, Hscore, Hms. simpl. eexists. split; [reflexivity|].
    constructor; [|exact Hcarry]. repeat split; assumption.
Qed.

Lemma of_matches_raises ms e : of_matches ms = Raise e -> class_of e = KeyError.
Proof.
  induction ms as [|m ms IH]; simpl; [discriminate|].
  unfold of_match.
  destruct (sv_id m), (sv_metadata m), (sv_score m);
    try (intros [= <-]; reflexivity).
  destruct (of_matches ms); simpl; [discriminate|].
  intros [= <-]. apply IH. reflexivity.
Qed.

Lemma of_matches_incomplete ms :
  Exists (fun m => ~ complete m) ms -> exists e, of_matches ms = Raise e.
Proof.
  induction 1 as [m ms Hm|m ms _ [e He]]; simpl; unfold of_match.
  - destruct (sv_id m) eqn:Hid, (sv_metadata m) eqn:Hmeta, (sv_score m) eqn:Hscore;
      eauto.
    exfalso. apply Hm. unfold complete. rewrite Hid, Hmeta, Hscore. eauto.
  - destruct (sv_id m), (sv_metadata m), (sv_score m); eauto.
    rewrite He. simpl. eauto.
Qed.

(** X4. With the connection set up and the query answered,
    [PineconeSink.search] asks for [number_of_results] matches in the
    resolved namespace, without values and with metadata, and makes no
    other call.  An answer without ['matches'] gives PineconeQueryException
    for the missing key.  When every match carries an id, metadata and a
    score, the result has one entry per match, in the order answered, with
    those three.  When a match lacks one of them, the KeyError of the loop
    after the [try] reaches the caller as it is. *)
Theorem pinecone_search_converts_matches :
  forall W (lib : PineconeLib W) (s : state PineconeSink.t W)
         vector k pipeline_id w1 h w2 response w3,
    let name := resolve (PineconeSink.namespace (self s)) pipeline_id in
    let r := (PineconeSink.search vector k pipeline_id s).1 in
    pinecone_init (PineconeSink.api_key (self s))
      (PineconeSink.environment (self s)) (world s) = (Return tt, w1) ->
    pinecone_Index (PineconeSink.index (self s)) w1 = (Return h, w2) ->
    Index_query h vector k name false true w2 = (Return response, w3) ->
    r = match response !! "matches" with
        | Some matches => of_matches matches
        | None =>
            Raise (Exn PineconeQueryException
                     "Failed to query pinecone. Exception - 'matches'")
        end /\
    (forall matches,
        response !! "matches" = Some matches -> Forall complete matches ->
        exists results, r = Return results /\ Forall2 carries matches results) /\
    (forall matches,
        response !! "matches" = Some matches ->
        Exists (fun m => ~ complete m) matches ->
        exists e, r = Raise e /\ class_of e = KeyError) /\
    ev_call <$> added s (PineconeSink.search vector k pipeline_id s).2 =
      [Call_pinecone_init (PineconeSink.api_key (self s))
         (PineconeSink.environment (self s));
       Call_pinecone_Index (PineconeSink.index (self s));
       Call_Index_query vector k name false true].
Proof.
  intros W lib s v k pid w1 h w2 response w3 name r Hinit Hindex Hquery.
  subst name r.
  assert (Hrun :
    PineconeSink.search v k pid s =
      (match response !! "matches" with
       | Some matches => of_matches matches
       | None =>
           Raise (Exn PineconeQueryException
                    "Failed to query pinecone. Exception - 'matches'")
       end,
       State (self s) w3
         (log s ++
          [Ev (Call_pinecone_init (PineconeSink.api_key (self s))
                 (PineconeSink.environment (self s))) (Return ReplyObject);
           Ev (Call_pinecone_Index (PineconeSink.index (self s))) (Return ReplyObject);
           Ev (Call_Index_query v k
                 (resolve (PineconeSink.namespace (self s)) pid) false true)
             (Return (ReplyQuery response))]))).
  { unfold PineconeSink.search, PineconeSink.init, PineconeSink.Index,
      PineconeSink.query, subscript. unfold_py.
    rewrite Hinit. simpl. rewrite Hindex. simpl. rewrite Hquery. simpl.
    destruct (response !! "matches") as [matches|]; simpl;
      rewrite <- ?app_assoc; [|reflexivity].
    rewrite append_matches_outcome. simpl.
    destruct (of_matches matches); reflexivity. }
  rewrite Hrun. simpl. rewrite added_app. repeat split.
  - intros matches -> Hall. apply of_matches_complete. exact Hall.
  - intros matches -> Hsome.
    destruct (of_matches_incomplete matches Hsome) as [e He].
    exists e. split; [exact He|]. exact (of_matches_raises _ _ He).
Qed.

Lemma pinecone_search_converts_matches_witness :
  outcome_map length (PineconeSink.search [] 2 "42" pinecone_three).1 = Return 2%nat /\
  (PineconeSink.search [] 2 "42" pinecone_partial_count).1
    = Raise (Exn PineconeQueryException
               "Failed to query pinecone. Exception - 'matches'") /\
  (PineconeSink.search [] 2 "42" pinecone_scripted_answers).1
    = Raise (Exn KeyError "'metadata'").
Proof.
  split; [|split].
  - destruct (pinecone_search_converts_matches _ MemIndex.lib pinecone_three
                [] 2 "42" _ _ _ _ _ eq_refl eq_refl eq_refl) as [-> _].
    reflexivity.
  - exact (proj1 (pinecone_search_converts_matches _ CannedIndex.lib
                    pinecone_partial_count [] 2 "42" _ _ _ _ _
                    eq_refl eq_refl eq_refl)).
  - exact (proj1 (pinecone_search_converts_matches _ CannedIndex.lib
                    pinecone_scripted_answers [] 2 "42" _ _ _ _ _
                    eq_refl eq_refl eq_refl)).
Defined.

(** X5. With the connection set up and the statistics answered,
    [PineconeSink.info] is decided by three lookups: no ['namespace'] entry
    in the answer, or no ['vector_count'] in the summary of the resolved
    name, gives PineconeIndexInfoException for the missing key; a summary
    with a count gives that count; a name that is not listed gives no
    result at all.  Nothing but [init], [Index] and [describe_index_stats]
    is called. *)
Theorem pinecone_info_reads_statistics :
  forall W (lib : PineconeLib W) (s : state PineconeSink.t W)
         pipeline_id w1 h w2 st w3,
    let name := resolve (PineconeSink.namespace (self s)) pipeline_id in
    pinecone_init (PineconeSink.api_key (self s))
      (PineconeSink.environment (self s)) (world s) = (Return tt, w1) ->
    pinecone_Index (PineconeSink.index (self s)) w1 = (Return h, w2) ->
    describe_index_stats h w2 = (Return st, w3) ->
    (PineconeSink.info pipeline_id s).1 =
      match st !! "namespace" with
      | None =>
          Raise (Exn PineconeIndexInfoException
                   "Failed to get info for pinecone. Exception - 'namespace'")
      | Some namespaces =>
          match namespaces !! name with
          | None => Return None
          | Some summary =>
              match summary !! "vector_count" with
              | Some n => Return (Some (NeumSinkInfo.Build n))
              | None =>
                  Raise (Exn PineconeIndexInfoException
                           "Failed to get info for pinecone. Exception - 'vector_count'")
              end
          end
      end /\
    ev_call <$> added s (PineconeSink.info pipeline_id s).2 =
      [Call_pinecone_init (PineconeSink.api_key (self s))
         (PineconeSink.environment (self s));
       Call_pinecone_Index (PineconeSink.index (self s));
       Call_describe_index_stats].
Proof.
  intros W lib s pid w1 h w2 st w3 name Hinit Hindex Hstats. subst name.
  unfold PineconeSink.info, PineconeSink.init, PineconeSink.Index,
    PineconeSink.stats, subscript. unfold_py.
  rewrite Hinit. simpl. rewrite Hindex. simpl. rewrite Hstats. simpl.
  destruct (st !! "namespace") as [namespaces|]; simpl; tidy_log; [|auto].
  destruct (namespaces !! _) as [summary|] eqn:Hname.
  - rewrite bool_decide_eq_true_2 by eauto. simpl.
    destruct (summary !! "vector_count") as [n|]; simpl; tidy_log; auto.
  - rewrite bool_decide_eq_false_2 by (intros [? ?]; discriminate).
    simpl. tidy_log. auto.
Qed.

Lemma pinecone_info_reads_statistics_witness :
  (PineconeSink.info "42" pinecone_scripted_answers).1
    = Return (Some (NeumSinkInfo.Build 3)) /\
  (PineconeSink.info "42" pinecone_partial_count).1
    = Raise (Exn PineconeIndexInfoException
               "Failed to get info for pinecone. Exception - 'namespace'").
Proof.
  split.
  - exact (proj1 (pinecone_info_reads_statistics _ CannedIndex.lib
                    pinecone_scripted_answers "42" _ _ _ _ _
                    eq_refl eq_refl eq_refl)).
  - exact (proj1 (pinecone_info_reads_statistics _ CannedIndex.lib
                    pinecone_partial_count "42" _ _ _ _ _
                    eq_refl eq_refl eq_refl)).
Defined.

(** ** What the operations never do *)

Ltac no_write := repeat first [apply Forall_nil_2 | apply Forall_cons_2; [reflexivity|]].

(** X6. [validation], [search] and [info] of either connector never
    write: however the library answers, they send no upsert and create no
    collection. *)
Theorem reading_operations_never_write :
  (forall W (lib : PineconeLib W) (s : state PineconeSink.t W) vector k pipeline_id,
      let reads evs := Forall (fun ev => writes (ev_call ev) = false) evs in
      reads (added s (PineconeSink.validation s).2) /\
      reads (added s (PineconeSink.search vector k pipeline_id s).2) /\
      reads (added s (PineconeSink.info pipeline_id s).2)) /\
  (forall W (lib : VecsLib W) (s : state SupabaseSink.t W) vector k pipeline_id,
      let reads evs := Forall (fun ev => writes (ev_call ev) = false) evs in
      reads (added s (SupabaseSink.validation s).2) /\
      reads (added s (SupabaseSink.search vector k pipeline_id s).2) /\
      reads (added s (SupabaseSink.info pipeline_id s).2)).
Proof.
  split; intros W lib s v k pid reads; subst reads; repeat split.
  - unfold PineconeSink.validation, PineconeSink.init, PineconeSink.Index,
      PineconeSink.stats. unfold_py.
    lib_call; [lib_call; [lib_call|]|]; tidy_log; no_write.
  - unfold PineconeSink.search, PineconeSink.init, PineconeSink.Index,
      PineconeSink.query, subscript. unfold_py.
    lib_call; [lib_call; [lib_call|]|]; tidy_log; try solve [no_write].
    destruct (_ !! "matches") as [results|]; simpl; tidy_log; [|no_write].
    rewrite append_matches_outcome.
    simpl. tidy_log. no_write.
  - unfold PineconeSink.info, PineconeSink.init, PineconeSink.Index,
      PineconeSink.stats, subscript. unfold_py.
    lib_call; [lib_call; [lib_call|]|]; tidy_log; try solve [no_write].
    destruct (_ !! "namespace") as [namespaces|]; simpl; tidy_log; [|no_write].
    case_bool_decide; simpl; tidy_log; [|no_write].
    destruct (namespaces !! _) as [summary|]; simpl; tidy_log; [|no_write].
    destruct (summary !! "vector_count"); simpl; tidy_log; no_write.
  - unfold SupabaseSink.validation, SupabaseSink.client. unfold_py.
    lib_call; tidy_log; no_write.
  - unfold SupabaseSink.search, SupabaseSink.client, SupabaseSink.get,
      SupabaseSink.query, SupabaseSink.close. unfold_py.
    lib_call; [|tidy_log; no_write].
    lib_call; lib_call; tidy_log; try solve [no_write].
    lib_call; lib_call; tidy_log; try solve [no_write].
    rewrite (for_each_append of_row) by reflexivity.
    simpl. tidy_log. no_write.
  - unfold SupabaseSink.info, SupabaseSink.client, SupabaseSink.get,
      SupabaseSink.count, SupabaseSink.close. unfold_py.
    lib_call; [|tidy_log; no_write].
    lib_call; lib_call; tidy_log; try solve [no_write].
    lib_call; tidy_log; no_write.
Qed.

(** ** Connecting *)

Ltac started :=
  eexists _, _; split; [reflexivity|];
  first [ reflexivity | exact I | eexists _, _; reflexivity ].

(** X7. Every operation begins by connecting with the configured values:
    a PineconeSink operation first calls [init] with the configured API key
    and environment and, when that returns, next calls [Index] with the
    configured index; a SupabaseSink operation first calls [create_client]
    with the configured connection string.  When that first call raises,
    no other call is made. *)
Theorem operations_connect_first :
  (forall W (lib : PineconeLib W) (s : state PineconeSink.t W)
          pipeline_id vectors task_id vector k,
      let first := Call_pinecone_init (PineconeSink.api_key (self s))
                     (PineconeSink.environment (self s)) in
      let second := Some (Call_pinecone_Index (PineconeSink.index (self s))) in
      starts_with first second (added s (PineconeSink.validation s).2) /\
      starts_with first second
        (added s (PineconeSink.store pipeline_id vectors task_id s).2) /\
      starts_with first second (added s (PineconeSink.search vector k pipeline_id s).2) /\
      starts_with first second (added s (PineconeSink.info pipeline_id s).2)) /\
  (forall W (lib : VecsLib W) (s : state SupabaseSink.t W)
          pipeline_id vectors task_id vector k,
      let first := Call_create_client (SupabaseSink.database_connection (self s)) in
      starts_with first None (added s (SupabaseSink.validation s).2) /\
      starts_with first None
        (added s (SupabaseSink.store pipeline_id vectors task_id s).2) /\
      starts_with first None (added s (SupabaseSink.search vector k pipeline_id s).2) /\
      starts_with first None (added s (SupabaseSink.info pipeline_id s).2)).
Proof.
  split; intros W lib s pid vs task v k first; [intros second; subst second|];
    subst first; repeat split.
  - unfold PineconeSink.validation, PineconeSink.init, PineconeSink.Index,
      PineconeSink.stats. unfold_py.
    lib_call; [lib_call; [lib_call|]|]; tidy_log; started.
  - unfold PineconeSink.store, PineconeSink.init, PineconeSink.Index. unfold_py.
    lib_call; [lib_call|]; tidy_log; try solve [started].
    match goal with |- context [for_each ?idx (PineconeSink.store_batch ?h ?ns vs) ?a ?s1] =>
      destruct (store_loop_sends h ns vs idx a s1) as (evs & Hlog & _ & _);
      destruct (for_each idx (PineconeSink.store_batch h ns vs) a s1) as [[n|e] s2]
    end; simpl in *; rewrite <- !app_assoc in Hlog;
      rewrite (added_of_log _ _ _ Hlog); started.
  - unfold PineconeSink.search, PineconeSink.init, PineconeSink.Index,
      PineconeSink.query, subscript. unfold_py.
    lib_call; [lib_call; [lib_call|]|]; tidy_log; try solve [started].
    destruct (_ !! "matches") as [results|]; simpl; tidy_log; [|started].
    rewrite append_matches_outcome.
    simpl. tidy_log. started.
  - unfold PineconeSink.info, PineconeSink.init, PineconeSink.Index,
      PineconeSink.stats, subscript. unfold_py.
    lib_call; [lib_call; [lib_call|]|]; tidy_log; try solve [started].
    destruct (_ !! "namespace") as [namespaces|]; simpl; tidy_log; [|started].
    case_bool_decide; simpl; tidy_log; [|started].
    destruct (namespaces !! _) as [summary|]; simpl; tidy_log; [|started].
    destruct (summary !! "vector_count"); simpl; tidy_log; started.
  - unfold SupabaseSink.validation, SupabaseSink.client. unfold_py.
    lib_call; tidy_log; started.
  - unfold SupabaseSink.store, SupabaseSink.client, SupabaseSink.get_or_create,
      SupabaseSink.upsert, SupabaseSink.close. unfold_py.
    lib_call; [|tidy_log; started].
    unfold item. destruct (vs !! 0%nat) as [v0|]; unfold_py.
    + lib_call.
      * unfold range. rewrite collect_records by lia. simpl.
        lib_call; lib_call; tidy_log; started.
      * lib_call; tidy_log; started.
    + lib_call; tidy_log; started.
  - unfold SupabaseSink.search, SupabaseSink.client, SupabaseSink.get,
      SupabaseSink.query, SupabaseSink.close. unfold_py.
    lib_call; [|tidy_log; started].
    lib_call; lib_call; tidy_log; try solve [started].
    lib_call; lib_call; tidy_log; try solve [started].
    rewrite (for_each_append of_row) by reflexivity.
    simpl. tidy_log. started.
  - unfold SupabaseSink.info, SupabaseSink.client, SupabaseSink.get,
      SupabaseSink.count, SupabaseSink.close. unfold_py.
    lib_call; [|tidy_log; started].
    lib_call; lib_call; tidy_log; try solve [started].
    lib_call; tidy_log; started.
Qed.

(** ** What [search], [info] and [store] of SupabaseSink do *)

(** X8. When every library call returns, [SupabaseSink.search] makes five
    calls in this order: [create_client], [get_collection] for the resolved
    name, [disconnect], the query (with metadata and values, limited to
    [number_of_results]) and [disconnect] again; the query is made after
    the client was disconnected.  It returns one result per row, in the
    order answered, with the row's first component as id, its second as
    score and its third as metadata. *)
Theorem supabase_search_converts_rows :
  forall W (lib : VecsLib W) (s : state SupabaseSink.t W)
         vector k pipeline_id vx w1 db w2 w3 rows w4 w5,
    let name := resolve (SupabaseSink.collection_name (self s)) pipeline_id in
    create_client (SupabaseSink.database_connection (self s)) (world s)
      = (Return vx, w1) ->
    get_collection vx name w1 = (Return db, w2) ->
    disconnect vx w2 = (Return tt, w3) ->
    Collection_query db vector true true k w3 = (Return rows, w4) ->
    disconnect vx w4 = (Return tt, w5) ->
    (SupabaseSink.search vector k pipeline_id s).1 = Return (of_row <$> rows) /\
    ev_call <$> added s (SupabaseSink.search vector k pipeline_id s).2 =
      [Call_create_client (SupabaseSink.database_connection (self s));
       Call_get_collection name;
       Call_disconnect;
       Call_Collection_query vector true true k;
       Call_disconnect].
Proof.
  intros W lib s v k pid vx w1 db w2 w3 rows w4 w5 name Hclient Hget Hclose Hquery Hclose'.
  subst name.
  unfold SupabaseSink.search, SupabaseSink.client, SupabaseSink.get,
    SupabaseSink.query, SupabaseSink.close. unfold_py.
  rewrite Hclient. simpl. rewrite Hget. simpl. rewrite Hclose. simpl.
  rewrite Hquery. simpl. rewrite Hclose'. simpl.
  rewrite (for_each_append of_row) by reflexivity.
  simpl. tidy_log. auto.
Qed.

Lemma supabase_search_converts_rows_witness :
  outcome_map length (SupabaseSink.search [] 2 "42" supabase_three).1 = Return 2%nat /\
  ev_call <$> added supabase_three (SupabaseSink.search [] 2 "42" supabase_three).2
    = [Call_create_client "postgresql://db"; Call_get_collection "pipeline_42";
       Call_disconnect; Call_Collection_query [] true true 2; Call_disconnect].
Proof.
  destruct (supabase_search_converts_rows _ MemVecs.lib supabase_three [] 2 "42"
              tt _ "pipeline_42" _ _ _ _ _ eq_refl eq_refl eq_refl eq_refl eq_refl)
    as [Hr Hcalls].
  split; [|exact Hcalls]. rewrite Hr. vm_compute. reflexivity.
Defined.

(** X9. With the client created and [disconnect] returning,
    [SupabaseSink.info] has two courses.  [get_collection] raises, for
    whatever reason: the caller gets SupabaseIndexInfoException saying the
    resolved collection does not exist, the library's own message is
    dropped, and no count is read.  [get_collection] returns: the count is
    read after the client was disconnected, and what the read answers is
    the number reported. *)
Theorem supabase_info_outcomes :
  forall W (lib : VecsLib W) (s : state SupabaseSink.t W) pipeline_id vx w1,
    let name := resolve (SupabaseSink.collection_name (self s)) pipeline_id in
    let r := (SupabaseSink.info pipeline_id s).1 in
    let calls := ev_call <$> added s (SupabaseSink.info pipeline_id s).2 in
    let connect := Call_create_client (SupabaseSink.database_connection (self s)) in
    create_client (SupabaseSink.database_connection (self s)) (world s)
      = (Return vx, w1) ->
    (forall e w2 w3,
        get_collection vx name w1 = (Raise e, w2) ->
        disconnect vx w2 = (Return tt, w3) ->
        r = Raise (Exn SupabaseIndexInfoException
                     ("Collection " +:+ name +:+ " does not exist")) /\
        calls = [connect; Call_get_collection name; Call_disconnect]) /\
    (forall db w2 w3 n w4,
        get_collection vx name w1 = (Return db, w2) ->
        disconnect vx w2 = (Return tt, w3) ->
        table_count db w3 = (Return n, w4) ->
        r = Return (NeumSinkInfo.Build n) /\
        calls = [connect; Call_get_collection name; Call_disconnect; Call_table_count]).
Proof.
  intros W lib s pid vx w1 name r calls connect Hclient.
  subst name r calls connect.
  unfold SupabaseSink.info, SupabaseSink.client, SupabaseSink.get,
    SupabaseSink.count, SupabaseSink.close. unfold_py.
  rewrite Hclient. simpl. split.
  - intros e w2 w3 Hget Hclose. rewrite Hget. simpl. rewrite Hclose. simpl.
    tidy_log. auto.
  - intros db w2 w3 n w4 Hget Hclose Hcount. rewrite Hget. simpl.
    rewrite Hclose. simpl. rewrite Hcount. simpl. tidy_log. auto.
Qed.

Lemma supabase_info_outcomes_witness :
  (SupabaseSink.info (lib:=CannedVecs.lib lost_connection) "p" supabase_scripted).1
    = Raise (Exn SupabaseIndexInfoException "Collection pipeline_p does not exist") /\
  (SupabaseSink.info "42" supabase_three).1 = Return (NeumSinkInfo.Build 3).
Proof.
  split.
  - destruct (supabase_info_outcomes _ (CannedVecs.lib lost_connection)
                supabase_scripted "p" tt _ eq_refl) as [Hmissing _].
    exact (proj1 (Hmissing _ _ _ eq_refl eq_refl)).
  - destruct (supabase_info_outcomes _ MemVecs.lib supabase_three "42"
                tt _ eq_refl) as [_ Hcount].
    exact (proj1 (Hcount "pipeline_42" _ _ _ _ eq_refl eq_refl eq_refl)).
Defined.

Section SupabaseStoreOutcome.
Context {W : Type} {lib : VecsLib W}.
Variable vx : Client.
Hypothesis disconnect_returns : forall w, exists w', disconnect vx w = (Return tt, w').

Ltac close_call :=
  match goal with
  | |- context [disconnect vx ?b] =>
      let w := fresh "w" in
      let H := fresh "Hclose" in
      destruct (disconnect_returns b) as [w H]; rewrite H; simpl
  end.

(** With the client created and [disconnect] returning, how a run of
    [SupabaseSink.store] ends is read off its transcript. *)
Lemma supabase_store_outcome (s : state SupabaseSink.t W) pipeline_id vectors task_id w1 :
  create_client (SupabaseSink.database_connection (self s)) (world s)
    = (Return vx, w1) ->
  let r := (SupabaseSink.store pipeline_id vectors task_id s).1 in
  let evs := added s (SupabaseSink.store pipeline_id vectors task_id s).2 in
  last (ev_call <$> evs) = Some Call_disconnect /\
  (length (collection_upserts evs) <= 1)%nat /\
  match first_raise evs with
  | Some e =>
      r = Raise (Exn SupabaseInsertionException
                   ("Supabase storing failed. Exception " +:+ str e))
  | None =>
      match vectors with
      | [] =>
          r = Raise (Exn SupabaseInsertionException
                       "Supabase storing failed. Exception list index out of range")
      | _ :: _ => r = Return (Z.of_nat (length vectors))
      end
  end.
Proof.
  intros Hclient. destruct vectors as [|v0 rest]; cbv iota.
  - unfold SupabaseSink.store, SupabaseSink.client, SupabaseSink.get_or_create,
      SupabaseSink.upsert, SupabaseSink.close. unfold_py.
    rewrite Hclient. simpl. close_call. tidy_log. auto.
  - remember (v0 :: rest) as vs eqn:Hvs.
    assert (Hfirst : vs !! 0%nat = Some v0) by (subst vs; reflexivity). clear Hvs.
    unfold SupabaseSink.store, SupabaseSink.client, SupabaseSink.get_or_create,
      SupabaseSink.upsert, SupabaseSink.close. unfold_py.
    rewrite Hclient. simpl. unfold item. rewrite Hfirst. unfold_py.
    lib_call.
    + unfold range. rewrite collect_records by lia. simpl.
      lib_call; close_call; tidy_log; auto.
    + close_call. tidy_log. auto.
Qed.

End SupabaseStoreOutcome.

(** X10. With the client created and [disconnect] returning,
    [SupabaseSink.store] always ends by disconnecting and sends at most one
    upsert.  When [get_or_create_collection] or [upsert] raises, the caller
    gets SupabaseInsertionException with the library's message; when no
    call raises, the result is the number of vectors given (for a non-empty
    input), whatever the service did with them. *)
Theorem supabase_store_wraps_and_disconnects :
  forall W (lib : VecsLib W) (s : state SupabaseSink.t W)
         pipeline_id vectors task_id vx w1,
    create_client (SupabaseSink.database_connection (self s)) (world s)
      = (Return vx, w1) ->
    (forall w, exists w', disconnect vx w = (Return tt, w')) ->
    let r := (SupabaseSink.store pipeline_id vectors task_id s).1 in
    let evs := added s (SupabaseSink.store pipeline_id vectors task_id s).2 in
    last (ev_call <$> evs) = Some Call_disconnect /\
    (length (collection_upserts evs) <= 1)%nat /\
    match first_raise evs with
    | Some e =>
        r = Raise (Exn SupabaseInsertionException
                     ("Supabase storing failed. Exception " +:+ str e))
    | None =>
        match vectors with
        | [] =>
            r = Raise (Exn SupabaseInsertionException
                         "Supabase storing failed. Exception list index out of range")
        | _ :: _ => r = Return (Z.of_nat (length vectors))
        end
    end.
Proof.
  intros W lib s pid vs task vx w1 Hclient Hclose.
  exact (supabase_store_outcome vx Hclose s pid vs task w1 Hclient).
Qed.

Lemma supabase_store_wraps_and_disconnects_witness :
  (SupabaseSink.store (lib:=CannedVecs.lib failing_upsert) "p" (samples 3 8) ""
     supabase_scripted).1
    = Raise (Exn SupabaseInsertionException
               "Supabase storing failed. Exception disk full") /\
  last (ev_call <$> added supabase_scripted
                      (SupabaseSink.store (lib:=CannedVecs.lib failing_upsert)
                         "p" (samples 3 8) "" supabase_scripted).2)
    = Some Call_disconnect /\
  (SupabaseSink.store "p" (samples 3 8) "" supabase_fresh).1 = Return 3.
Proof.
  destruct (supabase_store_wraps_and_disconnects _ (CannedVecs.lib failing_upsert)
              supabase_scripted "p" (samples 3 8) "" tt _ eq_refl
              (fun w => ex_intro _ w eq_refl)) as (Hlast & _ & Hfail).
  destruct (supabase_store_wraps_and_disconnects _ MemVecs.lib
              supabase_fresh "p" (samples 3 8) "" tt _ eq_refl
              (fun w => ex_intro _ _ eq_refl)) as (_ & _ & Hok).
  split; [exact Hfail|]. split; [exact Hlast | exact Hok].
Defined.

(** X11. A [disconnect] that raises decides the outcome: with the client
    created, [store], [search] and [info] of SupabaseSink then end in the
    exception of [disconnect], as the library raised it, whatever happened
    before, also when the upsert had gone through; [search] makes no query
    and [info] reads no count. *)
Theorem supabase_failing_disconnect_reaches_caller :
  forall W (lib : VecsLib W) (s : state SupabaseSink.t W)
         pipeline_id vectors task_id vector k vx w1 e,
    let name := resolve (SupabaseSink.collection_name (self s)) pipeline_id in
    let connect := Call_create_client (SupabaseSink.database_connection (self s)) in
    create_client (SupabaseSink.database_connection (self s)) (world s)
      = (Return vx, w1) ->
    (forall w, exists w', disconnect vx w = (Raise e, w')) ->
    (SupabaseSink.store pipeline_id vectors task_id s).1 = Raise e /\
    (SupabaseSink.search vector k pipeline_id s).1 = Raise e /\
    (SupabaseSink.info pipeline_id s).1 = Raise e /\
    ev_call <$> added s (SupabaseSink.search vector k pipeline_id s).2
      = [connect; Call_get_collection name; Call_disconnect] /\
    ev_call <$> added s (SupabaseSink.info pipeline_id s).2
      = [connect; Call_get_collection name; Call_disconnect].
Proof.
  intros W lib s pid vs task v k vx w1 e name connect Hclient Hclose.
  subst name connect.
  assert (Hbreak : forall w, exists w', disconnect vx w = (Raise e, w')) by exact Hclose.
  repeat split.
  - unfold SupabaseSink.store, SupabaseSink.client, SupabaseSink.get_or_create,
      SupabaseSink.upsert, SupabaseSink.close. unfold_py.
    rewrite Hclient. simpl.
    unfold item. destruct (vs !! 0%nat) as [v0|]; unfold_py.
    + lib_call.
      * unfold range. rewrite collect_records by lia. simpl.
        lib_call;
          match goal with |- context [disconnect vx ?w] =>
            destruct (Hbreak w) as [w' ->] end; reflexivity.
      * match goal with |- context [disconnect vx ?w] =>
          destruct (Hbreak w) as [w' ->] end. reflexivity.
    + match goal with |- context [disconnect vx ?w] =>
        destruct (Hbreak w) as [w' ->] end. reflexivity.
  - unfold SupabaseSink.search, SupabaseSink.client, SupabaseSink.get,
      SupabaseSink.query, SupabaseSink.close. unfold_py.
    rewrite Hclient. simpl.
    lib_call;
      match goal with |- context [disconnect vx ?w] =>
        destruct (Hbreak w) as [w' ->] end; reflexivity.
  - unfold SupabaseSink.info, SupabaseSink.client, SupabaseSink.get,
      SupabaseSink.count, SupabaseSink.close. unfold_py.
    rewrite Hclient. simpl.
    lib_call;
      match goal with |- context [disconnect vx ?w] =>
        destruct (Hbreak w) as [w' ->] end; reflexivity.
  - unfold SupabaseSink.search, SupabaseSink.client, SupabaseSink.get,
      SupabaseSink.query, SupabaseSink.close. unfold_py.
    rewrite Hclient. simpl.
    lib_call;
      match goal with |- context [disconnect vx ?w] =>
        destruct (Hbreak w) as [w' ->] end; simpl; tidy_log; reflexivity.
  - unfold SupabaseSink.info, SupabaseSink.client, SupabaseSink.get,
      SupabaseSink.count, SupabaseSink.close. unfold_py.
    rewrite Hclient. simpl.
    lib_call;
      match goal with |- context [disconnect vx ?w] =>
        destruct (Hbreak w) as [w' ->] end; simpl; tidy_log; reflexivity.
Qed.

Lemma supabase_failing_disconnect_reaches_caller_witness :
  (SupabaseSink.store (lib:=CannedVecs.lib failing_disconnect) "p" (samples 3 8) ""
     supabase_scripted).1
    = Raise (service_error "pool already disposed") /\
  collection_upserts
    (log (SupabaseSink.store (lib:=CannedVecs.lib failing_disconnect)
            "p" (samples 3 8) "" supabase_scripted).2)
    = [as_tuple <$> samples 3 8] /\
  (SupabaseSink.search (lib:=CannedVecs.lib failing_disconnect) [] 3 "p"
     supabase_scripted).1
    = Raise (service_error "pool already disposed") /\
  (SupabaseSink.info (lib:=CannedVecs.lib failing_disconnect) "p" supabase_scripted).1
    = Raise (service_error "pool already disposed").
Proof.
  destruct (supabase_failing_disconnect_reaches_caller _
              (CannedVecs.lib failing_disconnect)
              supabase_scripted "p" (samples 3 8) "" [] 3 tt _ _ eq_refl
              (fun w => ex_intro _ w eq_refl)) as (Hstore & Hsearch & Hinfo & _).
  split; [exact Hstore|]. split; [vm_compute; reflexivity|].
  split; [exact Hsearch | exact Hinfo].
Defined.

(** ** Exceptions of PineconeSink *)

(** X12. [validation], [store] and [info] of PineconeSink let nothing
    but their own exception reach the caller: a PineconeConnectionException,
    a PineconeInsertionException, a PineconeIndexInfoException.  For
    [info], a library call that raises gives the exception with the
    library's message embedded.  [search] raises PineconeQueryException for
    all that happens inside its [try]; the one other exception it lets out
    is the KeyError of its loop over the matches, and only after every
    library call has returned. *)
Theorem pinecone_raises_domain_exceptions_only :
  forall W (lib : PineconeLib W) (s : state PineconeSink.t W)
         pipeline_id vectors task_id vector k,
    (forall e, (PineconeSink.validation s).1 = Raise e ->
               class_of e = PineconeConnectionException) /\
    (forall e, (PineconeSink.store pipeline_id vectors task_id s).1 = Raise e ->
               class_of e = PineconeInsertionException) /\
    (forall e, (PineconeSink.info pipeline_id s).1 = Raise e ->
               class_of e = PineconeIndexInfoException) /\
    (forall e, first_raise (added s (PineconeSink.info pipeline_id s).2) = Some e ->
               (PineconeSink.info pipeline_id s).1
                 = Raise (Exn PineconeIndexInfoException
                            ("Failed to get info for pinecone. Exception - " +:+ str e))) /\
    (forall e, (PineconeSink.search vector k pipeline_id s).1 = Raise e ->
               class_of e = PineconeQueryException \/
               (class_of e = KeyError /\
                first_raise (added s (PineconeSink.search vector k pipeline_id s).2)
                  = None)).
Proof.
  intros W lib s pid vs task v k.
  destruct (pinecone_operations_wrap_every_error (lib:=lib) pid vs task)
    as (Hvalidation & Hstore & Hinfo).
  split; [exact (Hvalidation s)|]. split; [exact (Hstore s)|].
  split; [exact (Hinfo s)|]. split.
  - intros e.
    unfold PineconeSink.info, PineconeSink.init, PineconeSink.Index,
      PineconeSink.stats, subscript. unfold_py.
    lib_call; [lib_call; [lib_call|]|]; tidy_log;
      try solve [intros [= <-]; reflexivity].
    destruct (_ !! "namespace") as [namespaces|]; simpl; tidy_log; [|discriminate].
    case_bool_decide; simpl; tidy_log; [|discriminate].
    destruct (namespaces !! _) as [summary|]; simpl; tidy_log; [|discriminate].
    destruct (summary !! "vector_count"); simpl; tidy_log; discriminate.
  - intros e.
    unfold PineconeSink.search, PineconeSink.init, PineconeSink.Index,
      PineconeSink.query, subscript. unfold_py.
    lib_call; [lib_call; [lib_call|]|]; tidy_log;
      try solve [intros [= <-]; left; reflexivity].
    destruct (_ !! "matches") as [results|]; simpl; tidy_log;
      [|intros [= <-]; left; reflexivity].
    rewrite append_matches_outcome. simpl.
    destruct (of_matches results) as [found|e'] eqn:Hresults; simpl;
      [discriminate|].
    intros [= <-]. tidy_log. right.
    split; [exact (of_matches_raises _ _ Hresults) | reflexivity].
Qed.

Lemma pinecone_raises_domain_exceptions_only_witness :
  (PineconeSink.info "p" pinecone_bad_key).1
    = Raise (Exn PineconeIndexInfoException
               "Failed to get info for pinecone. Exception - Invalid API Key") /\
  (exists e, (PineconeSink.store "p" (samples 3 8) "" pinecone_bad_key).1 = Raise e /\
             class_of e = PineconeInsertionException) /\
  (exists e, (PineconeSink.search [] 2 "42" pinecone_scripted_answers).1 = Raise e /\
             class_of e = KeyError).
Proof.
  destruct (pinecone_raises_domain_exceptions_only _ MemIndex.lib pinecone_bad_key
              "p" (samples 3 8) "" [] 3) as (_ & Hstore & _ & Hinfo & _).
  destruct (pinecone_raises_domain_exceptions_only _ CannedIndex.lib
              pinecone_scripted_answers "42" [] "" [] 2) as (_ & _ & _ & _ & Hsearch).
  split; [exact (Hinfo _ eq_refl)|]. split.
  - eexists. split; [reflexivity|]. exact (Hstore _ eq_refl).
  - eexists. split; [reflexivity|].
    destruct (Hsearch _ eq_refl) as [Hquery|[Hkey _]]; [discriminate Hquery|exact Hkey].
Defined.

(** ** The single upsert of [SupabaseSink.store] *)

(** X13. When every library call returns, [SupabaseSink.store] makes four
    calls: [create_client], [get_or_create_collection] for the resolved
    name with the length of the first vector as dimension,
    one [upsert] of all records in input order, and [disconnect].  The
    dimension is taken from the first vector alone; vectors of another
    length are sent along unchanged. *)
Theorem supabase_store_dimension_from_first_vector :
  forall W (lib : VecsLib W) (s : state SupabaseSink.t W)
         pipeline_id first others task_id vx w1 db w2 w3 w4,
    let vectors := first :: others in
    let name := resolve (SupabaseSink.collection_name (self s)) pipeline_id in
    let dimension := Z.of_nat (length (NeumVector.vector first)) in
    create_client (SupabaseSink.database_connection (self s)) (world s)
      = (Return vx, w1) ->
    get_or_create_collection vx name dimension w1 = (Return db, w2) ->
    Collection_upsert db (as_tuple <$> vectors) w2 = (Return tt, w3) ->
    disconnect vx w3 = (Return tt, w4) ->
    SupabaseSink.store pipeline_id vectors task_id s =
      (Return (Z.of_nat (S (length others))),
       State (self s) w4
         (log s ++
          [Ev (Call_create_client (SupabaseSink.database_connection (self s)))
             (Return ReplyObject);
           Ev (Call_get_or_create_collection name dimension) (Return ReplyObject);
           Ev (Call_Collection_upsert (as_tuple <$> vectors)) (Return ReplyObject);
           Ev Call_disconnect (Return ReplyObject)])).
Proof.
  intros W lib s pid first others task vx w1 db w2 w3 w4 vectors name dimension
    Hclient Hcreate Hupsert Hclose.
  subst name dimension.
  assert (Hlen : length vectors = S (length others)) by reflexivity.
  assert (Hfirst : vectors !! 0%nat = Some first) by reflexivity.
  clearbody vectors.
  unfold SupabaseSink.store, SupabaseSink.client, SupabaseSink.get_or_create,
    SupabaseSink.upsert, SupabaseSink.close. unfold_py.
  rewrite Hclient. simpl. unfold item. rewrite Hfirst. unfold_py.
  rewrite Hcreate. simpl. unfold range.
  rewrite collect_records by lia. simpl. rewrite drop_0, Hupsert. simpl.
  rewrite Hclose. simpl. rewrite Hlen, <- !app_assoc. reflexivity.
Qed.

Lemma supabase_store_dimension_from_first_vector_witness :
  ev_call <$> log (SupabaseSink.store "p" [sample "a" 8; sample "b" 3] ""
                     supabase_fresh).2
    = [Call_create_client "postgresql://db";
       Call_get_or_create_collection "pipeline_p" 8;
       Call_Collection_upsert [as_tuple (sample "a" 8); as_tuple (sample "b" 3)];
       Call_disconnect] /\
  (SupabaseSink.store "p" [sample "a" 8; sample "b" 3] "" supabase_fresh).1 = Return 2.
Proof.
  rewrite (supabase_store_dimension_from_first_vector _ MemVecs.lib supabase_fresh
             "p" (sample "a" 8) [sample "b" 3] "" tt _ "pipeline_p" _ _ _
             eq_refl eq_refl eq_refl eq_refl).
  split; reflexivity.
Defined.
